(** * Cache-aside repository over GORM and cache2go

    A shallow embedding of [cache/gorm_cache.go] and [cache/repository.go],
    instantiated in [examples] with the [User] entity of [examples/].

    The Go code works on three pieces of shared state: the database behind
    [*gorm.DB], the cache table behind [*cache2go.CacheTable], and the Go heap
    that holds the entities the cache and the callers point to.  All three are
    fields of one [World] that every method takes and returns.  A method that
    can panic (a failed type assertion on a cached value) returns [Panic]. *)

From Stdlib Require Import ZArith String List Lia DecimalString.
From stdpp Require Import base gmap strings list fin_maps.

Local Open Scope string_scope.
Local Open Scope list_scope.
Local Open Scope Z_scope.

(** ** Go results *)

Inductive Outcome (A : Type) : Type :=
| Return (a : A)
| Panic.
Arguments Return {A} a.
Arguments Panic {A}.

(** ** gorm: errors and the database handle *)

Module gorm.

(** Go [error] values as gorm produces them: the sentinel
    [gorm.ErrRecordNotFound], any other error, and an error that wraps
    another one ([fmt.Errorf("...: %w", err)]). *)
Inductive error : Type :=
| ErrRecordNotFound
| ErrOther (msg : string)
| ErrWrap (msg : string) (inner : error).

#[global] Instance error_eq_dec : EqDecision error.
Proof. solve_decision. Defined.

(** [errors.Is(err, target)]: [err] or an error it wraps is [target]. *)
Fixpoint errors_Is (err target : error) : bool :=
  if decide (err = target) then true
  else match err with
       | ErrWrap _ inner => errors_Is inner target
       | _ => false
       end.

(** The calls the repository makes on [*gorm.DB].  [db] is the state of the
    database; each call returns the new state, what it wrote through the
    destination pointer, and the [Error] field of the returned handle.
    [cond] is the condition string given to [Where]. *)
Class DB (db T ID : Type) : Type := {
  (** [db.Where(cond, id).First(entity)]; [dest] is [*entity] before the call *)
  First : string -> ID -> T -> db -> db * T * option error;
  (** [db.Find(&entities)] *)
  Find : db -> db * list T * option error;
  (** [db.Where(cond, ids).Find(&entities)] *)
  FindIn : string -> list ID -> db -> db * list T * option error;
  (** [db.Save(entity)]; the entity is read and may be written (primary key,
      timestamps) *)
  Save : T -> db -> db * T * option error;
  (** [db.Where(cond, id).Delete(new(T))] *)
  Delete : string -> ID -> db -> db * option error
}.

End gorm.

Abbreviation error := gorm.error.
Abbreviation ErrRecordNotFound := gorm.ErrRecordNotFound.

(** ** fmt *)

(** [fmt.Sprintf("%v", id)] for the identifier type. *)
Class Formatter (ID : Type) : Type := Sprintf_v : ID -> string.

(** ** Heap *)

(** A [*T] is an address in the heap, a list of cells; [new(T)] appends a cell
    holding the zero value of [T] (the [inhabitant] of [T]). *)
Abbreviation ptr := nat.

(** ** cache2go *)

Module cache2go.

(** What the repository stores in the [interface{}] slot of a cache item:
    the marker [NotFound{}], an entity pointer [*T], or a slice [[]*T]. *)
Inductive Data : Type :=
| NotFound
| Entity (p : ptr)
| Entities (ps : list ptr).

#[global] Instance Data_eq_dec : EqDecision Data.
Proof. solve_decision. Defined.

(** Modelled from the spec: the cache table ([cachetable.go] and
    [cacheitem.go] are not among the sources).  An item carries its data,
    the life span it was added with (zero: never expires) and the time it
    was added at. *)
Record CacheItem : Type := {
  data : Data;
  lifeSpan : Z;
  createdOn : Z
}.

(** Modelled from the spec: the expiry of a cache item, absolute from
    insertion; an item past its deadline is treated as absent. *)
Definition expired (now : Z) (item : CacheItem) : bool :=
  negb (lifeSpan item =? 0) && (createdOn item + lifeSpan item <=? now).

(** Modelled from the spec: [CacheTable.Value], the contract
    [get(key) -> Entry | miss]. *)
Definition Value (key : string) (now : Z) (table : gmap string CacheItem)
  : option CacheItem :=
  match table !! key with
  | Some item => if expired now item then None else Some item
  | None => None
  end.

(** Modelled from the spec: [CacheTable.Add], the contract
    [set(key, ttl, entry)]; the last write wins. *)
Definition Add (key : string) (span : Z) (d : Data) (now : Z)
    (table : gmap string CacheItem) : gmap string CacheItem :=
  <[key := {| data := d; lifeSpan := span; createdOn := now |}]> table.

(** Modelled from the spec: [CacheTable.Delete], the contract [delete(key)]. *)
Definition Delete (key : string) (table : gmap string CacheItem)
  : gmap string CacheItem :=
  delete key table.

(** Modelled from the spec: [CacheTable.Flush], the contract [flushAll()]. *)
Definition Flush (table : gmap string CacheItem) : gmap string CacheItem := ∅.

End cache2go.

Abbreviation CacheItem := cache2go.CacheItem.
Abbreviation Data := cache2go.Data.
Abbreviation NotFound := cache2go.NotFound.
Abbreviation Entity := cache2go.Entity.
Abbreviation Entities := cache2go.Entities.

(** ** cache/repository.go *)

Record CacheConfig : Type := {
  TableName : string;
  (** [time.Duration], in nanoseconds; 0 means the entry never expires *)
  Expiration : Z;
  UseNotFoundCache : bool
}.

(** ** cache/gorm_cache.go *)

(** The fields of [GormCacheRepository] that are plain data.  [db] and
    [cacheTable] (the table [cache2go.Cache(config.TableName)] returns) are
    pointers to shared state and live in the [World]; the [sync.Pool] field
    [instance] is never used by a method. *)
Record GormCacheRepository : Type := {
  config : CacheConfig;
  primaryKey : string
}.

Definition NewGormCacheRepository (cfg : CacheConfig) (pk : string)
  : GormCacheRepository :=
  {| config := cfg; primaryKey := pk |}.

(** The repository is generic in the entity type [T] and in the identifier
    type [ID], which Go requires to be [comparable]. *)
Section Repository.
Context {db T ID : Type} `{Countable ID} `{!Inhabited T}.
Context `{!gorm.DB db T ID} `{!Formatter ID}.

(** What a method did to the outside, in order: the calls on the database
    handle (with the error they returned) and the writes to the cache
    table. *)
Inductive Event : Type :=
| DBFirst (cond : string) (id : ID) (err : option error)
| DBFind (entities : list ptr) (err : option error)
| DBFindIn (cond : string) (ids : list ID) (entities : list ptr)
    (err : option error)
| DBSave (entity : ptr) (err : option error)
| DBDelete (cond : string) (id : ID) (err : option error)
| CacheAdd (key : string) (span : Z) (d : Data)
| CacheDelete (key : string)
| CacheFlush.

(** The shared state: the Go heap, the database, the cache table of the
    repository, the clock (nanoseconds) and what has been done so far. *)
Record World : Type := {
  heap : list T;
  database : db;
  cacheTable : gmap string CacheItem;
  now : Z;
  trace : list Event
}.

Definition emit (ev : Event) (w : World) : World :=
  {| heap := heap w; database := database w; cacheTable := cacheTable w;
     now := now w; trace := trace w ++ [ev] |}.

Definition set_cacheTable (t : gmap string CacheItem) (w : World) : World :=
  {| heap := heap w; database := database w; cacheTable := t;
     now := now w; trace := trace w |}.

Definition set_store (h : list T) (d : db) (w : World) : World :=
  {| heap := h; database := d; cacheTable := cacheTable w;
     now := now w; trace := trace w |}.

(** [new(T)] *)
Definition new_T (w : World) : ptr * World :=
  (length (heap w), set_store (heap w ++ [inhabitant]) (database w) w).

(** *** The cache table calls *)

(** [r.cacheTable.Value(key)] followed by [.Data()]; [None] is the
    non-nil [err] of a miss. *)
Definition cache_Value (key : string) (w : World) : option Data :=
  cache2go.data <$> cache2go.Value key (now w) (cacheTable w).

Definition cache_Add (key : string) (span : Z) (d : Data) (w : World) : World :=
  emit (CacheAdd key span d)
    (set_cacheTable (cache2go.Add key span d (now w) (cacheTable w)) w).

Definition cache_Delete (key : string) (w : World) : World :=
  emit (CacheDelete key)
    (set_cacheTable (cache2go.Delete key (cacheTable w)) w).

Definition cache_Flush (w : World) : World :=
  emit CacheFlush (set_cacheTable (cache2go.Flush (cacheTable w)) w).

(** *** The database calls *)

Definition db_First (cond : string) (id : ID) (entity : ptr) (w : World)
  : option error * World :=
  let '(d, t, err) := gorm.First cond id (heap w !!! entity) (database w) in
  (err, emit (DBFirst cond id err) (set_store (<[entity := t]> (heap w)) d w)).

(** The rows a query returns are fresh entities at the end of the heap. *)
Definition db_Find (w : World) : list ptr * option error * World :=
  let '(d, ts, err) := gorm.Find (database w) in
  let entities := seq (length (heap w)) (length ts) in
  (entities, err, emit (DBFind entities err) (set_store (heap w ++ ts) d w)).

Definition db_FindIn (cond : string) (ids : list ID) (w : World)
  : list ptr * option error * World :=
  let '(d, ts, err) := gorm.FindIn cond ids (database w) in
  let entities := seq (length (heap w)) (length ts) in
  (entities, err,
   emit (DBFindIn cond ids entities err) (set_store (heap w ++ ts) d w)).

(** [entity] is a pointer the caller holds, an address in the heap. *)
Definition db_Save (entity : ptr) (w : World) : option error * World :=
  let '(d, t, err) := gorm.Save (heap w !!! entity) (database w) in
  (err, emit (DBSave entity err) (set_store (<[entity := t]> (heap w)) d w)).

Definition db_Delete (cond : string) (id : ID) (w : World)
  : option error * World :=
  let '(d, err) := gorm.Delete cond id (database w) in
  (err, emit (DBDelete cond id err) (set_store (heap w) d w)).

(** *** Key building *)

(** [buildCacheKey]: [fmt.Sprintf("%v", id)] *)
Definition buildCacheKey (r : GormCacheRepository) (id : ID) : string :=
  Sprintf_v id.

(** [buildCacheKeyFromEntity]: the source returns the empty string. *)
Definition buildCacheKeyFromEntity (r : GormCacheRepository) (entity : ptr)
  : string :=
  "".

(** *** The methods *)

Definition GetByID (r : GormCacheRepository) (id : ID) (w : World)
  : Outcome (option ptr * option error) * World :=
  let cacheKey := buildCacheKey r id in
  match cache_Value cacheKey w with
  | Some cachedData =>
      match cachedData with
      | NotFound => (Return (None, Some ErrRecordNotFound), w)
      | Entity p => (Return (Some p, None), w)
      | Entities _ => (Panic, w)
      end
  | None =>
      let '(entity, w) := new_T w in
      let '(queryError, w) :=
        db_First (primaryKey r +:+ " = ?") id entity w in
      match queryError with
      | Some e =>
          let w :=
            if UseNotFoundCache (config r)
               && gorm.errors_Is e ErrRecordNotFound
            then cache_Add cacheKey (Expiration (config r)) NotFound w
            else w in
          (Return (None, Some e), w)
      | None =>
          let w := cache_Add cacheKey (Expiration (config r)) (Entity entity) w in
          (Return (Some entity, None), w)
      end
  end.

Definition GetAll (r : GormCacheRepository) (w : World)
  : Outcome (option (list ptr) * option error) * World :=
  let cacheKey := "all" in
  match cache_Value cacheKey w with
  | Some cachedData =>
      match cachedData with
      | Entities ps => (Return (Some ps, None), w)
      | _ => (Panic, w)
      end
  | None =>
      let '(entities, queryError, w) := db_Find w in
      match queryError with
      | Some e => (Return (None, Some e), w)
      | None =>
          let w := cache_Add cacheKey (Expiration (config r)) (Entities entities) w in
          (Return (Some entities, None), w)
      end
  end.

Definition Save (r : GormCacheRepository) (entity : ptr) (w : World)
  : option error * World :=
  let '(queryError, w) := db_Save entity w in
  match queryError with
  | Some e => (Some e, w)
  | None =>
      let cacheKey := buildCacheKeyFromEntity r entity in
      let w := cache_Add cacheKey (Expiration (config r)) (Entity entity) w in
      let w := cache_Delete "all" w in
      (None, w)
  end.

Definition Delete (r : GormCacheRepository) (id : ID) (w : World)
  : option error * World :=
  let '(queryError, w) := db_Delete (primaryKey r +:+ " = ?") id w in
  match queryError with
  | Some e => (Some e, w)
  | None =>
      let cacheKey := buildCacheKey r id in
      let w := cache_Delete cacheKey w in
      let w := cache_Delete "all" w in
      (None, w)
  end.

Definition ClearCache (r : GormCacheRepository) (id : ID) (w : World)
  : option error * World :=
  let cacheKey := buildCacheKey r id in
  (None, cache_Delete cacheKey w).

Definition ClearAllCache (r : GormCacheRepository) (w : World)
  : option error * World :=
  (None, cache_Flush w).

(** The first loop of [BatchGet]: [result] and [uncachedIDs] after the ids
    still to visit.  The cache is only read. *)
Fixpoint BatchGet_lookup (r : GormCacheRepository) (w : World)
    (ids : list ID) (result : gmap ID ptr) (uncachedIDs : list ID)
  : Outcome (gmap ID ptr * list ID) :=
  match ids with
  | [] => Return (result, uncachedIDs)
  | id :: ids =>
      let cacheKey := buildCacheKey r id in
      match cache_Value cacheKey w with
      | Some cachedData =>
          match cachedData with
          | NotFound => BatchGet_lookup r w ids result uncachedIDs
          | Entity p => BatchGet_lookup r w ids (<[id := p]> result) uncachedIDs
          | Entities _ => Panic
          end
      | None => BatchGet_lookup r w ids result (uncachedIDs ++ [id])
      end
  end.

(** The second loop of [BatchGet]: every entity the query returned is added
    to the cache, under the key [buildCacheKeyFromEntity] gives. *)
Fixpoint BatchGet_fill (r : GormCacheRepository) (entities : list ptr)
    (w : World) : World :=
  match entities with
  | [] => w
  | entity :: entities =>
      let cacheKey := buildCacheKeyFromEntity r entity in
      BatchGet_fill r entities
        (cache_Add cacheKey (Expiration (config r)) (Entity entity) w)
  end.

(** The returned map is [None] for Go's [nil]. *)
Definition BatchGet (r : GormCacheRepository) (ids : list ID) (w : World)
  : Outcome (option (gmap ID ptr) * option error) * World :=
  match BatchGet_lookup r w ids ∅ [] with
  | Panic => (Panic, w)
  | Return (result, uncachedIDs) =>
      if (0 <? length uncachedIDs)%nat then
        let '(entities, queryError, w) :=
          db_FindIn (primaryKey r +:+ " IN ?") uncachedIDs w in
        match queryError with
        | Some e => (Return (None, Some e), w)
        | None => (Return (Some result, None), BatchGet_fill r entities w)
        end
      else (Return (Some result, None), w)
  end.

(** The ids of [ids] that miss the cache, in order. *)
Definition uncached (r : GormCacheRepository) (w : World) (ids : list ID) : list ID :=
  filter (fun id => cache_Value (buildCacheKey r id) w = None) ids.

(** The entry of [id] in the result of the first loop over [ids], started
    with [result]. *)
Definition cached_entry (r : GormCacheRepository) (w : World)
    (ids : list ID) (result : gmap ID ptr) (id : ID)
  : option ptr :=
  if decide (id ∈ ids) then
    match cache_Value (buildCacheKey r id) w with
    | Some (Entity p) => Some p
    | _ => result !! id
    end
  else result !! id.

(** *** Callers *)

(** What a caller of the repository can do between two method calls: call a
    method, let time pass ([time.Sleep(d)]; nothing happens for [d <= 0]),
    or write through an entity pointer it holds ([*p = t]). *)
Inductive Call : Type :=
| CallGetByID (id : ID)
| CallGetAll
| CallSave (entity : ptr)
| CallDelete (id : ID)
| CallClearCache (id : ID)
| CallClearAllCache
| CallBatchGet (ids : list ID)
| Sleep (d : Z)
| Assign (p : ptr) (t : T).

Definition sleep (d : Z) (w : World) : World :=
  {| heap := heap w; database := database w; cacheTable := cacheTable w;
     now := now w + Z.max 0 d; trace := trace w |}.

Definition exec (r : GormCacheRepository) (c : Call) (w : World) : World :=
  match c with
  | CallGetByID id => snd (GetByID r id w)
  | CallGetAll => snd (GetAll r w)
  | CallSave entity => snd (Save r entity w)
  | CallDelete id => snd (Delete r id w)
  | CallClearCache id => snd (ClearCache r id w)
  | CallClearAllCache => snd (ClearAllCache r w)
  | CallBatchGet ids => snd (BatchGet r ids w)
  | Sleep d => sleep d w
  | Assign p t => set_store (<[p := t]> (heap w)) (database w) w
  end.

Definition exec_all (r : GormCacheRepository) (cs : list Call) (w : World)
  : World :=
  fold_left (fun w c => exec r c w) cs w.

(** The world a fresh repository starts in: nothing cached, nothing done. *)
Definition init (h : list T) (d : db) (t : Z) : World :=
  {| heap := h; database := d; cacheTable := ∅; now := t; trace := [] |}.

(** *** Reading a trace *)

(** A call on the database handle. *)
Definition is_db_call (ev : Event) : bool :=
  match ev with
  | DBFirst _ _ _ | DBFind _ _ | DBFindIn _ _ _ _ | DBSave _ _
  | DBDelete _ _ _ => true
  | _ => false
  end.

(** A write to the cache table. *)
Definition is_cache_write (ev : Event) : bool :=
  match ev with
  | CacheAdd _ _ _ | CacheDelete _ | CacheFlush => true
  | _ => false
  end.

(** A [Save] or [Delete] on the database handle that succeeded. *)
Definition is_db_write (ev : Event) : bool :=
  match ev with
  | DBSave _ None | DBDelete _ _ None => true
  | _ => false
  end.

(** A cache write that stores the negative marker. *)
Definition adds_NotFound (ev : Event) : bool :=
  match ev with
  | CacheAdd _ _ NotFound => true
  | _ => false
  end.

(** The number of calls on the database handle in a trace. *)
Definition db_calls (evs : list Event) : nat :=
  length (filter (fun ev => is_db_call ev = true) evs).

(** The collection cached under ["all"], if there is one, is the result of
    a [Find] after which no [Save] or [Delete] reached the database. *)
Definition all_is_fresh (w : World) : Prop :=
  forall item ps,
    cacheTable w !! "all" = Some item ->
    cache2go.data item = Entities ps ->
    exists before after,
      trace w = before ++ DBFind ps None :: after
      /\ Forall (fun ev => is_db_write ev = false) after.

(** The cache table holds what the methods put there: a collection under
    ["all"], an entity or the marker [NotFound{}] under any other key. *)
Definition well_typed (w : World) : Prop :=
  forall key item,
    cacheTable w !! key = Some item ->
    match cache2go.data item with
    | Entities _ => key = "all"
    | _ => key <> "all"
    end.

(** The call panics (a type assertion on the cached data fails). *)
Definition panics (r : GormCacheRepository) (c : Call) (w : World) : bool :=
  match c with
  | CallGetByID id =>
      match fst (GetByID r id w) with Panic => true | Return _ => false end
  | CallGetAll =>
      match fst (GetAll r w) with Panic => true | Return _ => false end
  | CallBatchGet ids =>
      match fst (BatchGet r ids w) with Panic => true | Return _ => false end
  | _ => false
  end.

End Repository.

Arguments Event : clear implicits.
Arguments World : clear implicits.
Arguments Call : clear implicits.

(** ** examples/ *)

Module examples.

(** [User], with [uint] as [N], [int] as [Z], [time.Time] as nanoseconds and
    [gorm.DeletedAt] as an optional time. *)
Record User : Type := {
  ID : N;
  Username : string;
  Email : string;
  Age : Z;
  Active : bool;
  CreatedAt : Z;
  UpdatedAt : Z;
  DeletedAt : option Z
}.

#[global] Instance User_eq_dec : EqDecision User.
Proof. solve_decision. Defined.

(** The zero value of [User]. *)
#[global] Instance User_inhabited : Inhabited User :=
  populate {| ID := 0; Username := ""; Email := ""; Age := 0; Active := false;
              CreatedAt := 0; UpdatedAt := 0; DeletedAt := None |}.

(** [%v] of a [uint] is its decimal representation. *)
#[global] Instance uint_Formatter : Formatter N :=
  fun n => NilZero.string_of_uint (N.to_uint n).

(** [%v] of a [string] is the string. *)
#[global] Instance string_Formatter : Formatter string :=
  fun s => s.

(** An in-memory stand-in for the database behind [*gorm.DB] (the tests use
    an in-memory SQLite): the rows of one table, and the error every call
    fails with while the database is unavailable. *)
Record MemDB (T : Type) : Type := {
  rows : list T;
  failure : option error
}.
Arguments rows {T}.
Arguments failure {T}.

Section MemDB.
Context {T ID : Type} `{EqDecision ID}.
(** The primary key column, and what an insert or update does to the
    entity before it is written (a fresh primary key, say). *)
Variable pk : T -> ID.
Variable prepare : list T -> T -> T.

Definition has_pk (id : ID) (t : T) : bool := bool_decide (pk t = id).

Definition mem_First (cond : string) (id : ID) (dest : T) (d : MemDB T)
  : MemDB T * T * option error :=
  match failure d with
  | Some e => (d, dest, Some e)
  | None =>
      match find (has_pk id) (rows d) with
      | Some t => (d, t, None)
      | None => (d, dest, Some ErrRecordNotFound)
      end
  end.

Definition mem_Find (d : MemDB T) : MemDB T * list T * option error :=
  match failure d with
  | Some e => (d, [], Some e)
  | None => (d, rows d, None)
  end.

Definition mem_FindIn (cond : string) (ids : list ID) (d : MemDB T)
  : MemDB T * list T * option error :=
  match failure d with
  | Some e => (d, [], Some e)
  | None =>
      (d, List.filter (fun t => bool_decide (pk t ∈ ids)) (rows d), None)
  end.

Definition mem_Save (t : T) (d : MemDB T) : MemDB T * T * option error :=
  match failure d with
  | Some e => (d, t, Some e)
  | None =>
      let t := prepare (rows d) t in
      let others := List.filter (fun u => negb (has_pk (pk t) u)) (rows d) in
      ({| rows := others ++ [t]; failure := None |}, t, None)
  end.

Definition mem_Delete (cond : string) (id : ID) (d : MemDB T)
  : MemDB T * option error :=
  match failure d with
  | Some e => (d, Some e)
  | None =>
      ({| rows := List.filter (fun u => negb (has_pk id u)) (rows d);
          failure := None |}, None)
  end.

Definition mem_DB : gorm.DB (MemDB T) T ID :=
  {| gorm.First := mem_First; gorm.Find := mem_Find;
     gorm.FindIn := mem_FindIn; gorm.Save := mem_Save;
     gorm.Delete := mem_Delete |}.
End MemDB.

(** An insert (primary key zero) gets the next free [ID]. *)
Definition next_ID (us : list User) (u : User) : User :=
  if (ID u =? 0)%N then
    {| ID := N.succ (fold_right N.max 0%N (map ID us));
       Username := Username u; Email := Email u; Age := Age u;
       Active := Active u; CreatedAt := CreatedAt u;
       UpdatedAt := UpdatedAt u; DeletedAt := DeletedAt u |}
  else u.

(** The table [users], keyed by [id]. *)
#[global] Instance users_by_id : gorm.DB (MemDB User) User N :=
  mem_DB ID next_ID.

(** The table [users], keyed by [username]:
    [NewGormCacheRepository[User, string](db, config, "username")]. *)
#[global] Instance users_by_name : gorm.DB (MemDB User) User string :=
  mem_DB Username (fun _ u => u).

(** [NewUserCacheRepository]: ten minutes, in nanoseconds. *)
Definition NewUserCacheRepository : GormCacheRepository :=
  NewGormCacheRepository
    {| TableName := "users_cache";
       Expiration := 10 * 60 * 1000000000;
       UseNotFoundCache := true |}
    "id".

Definition user (id : N) (name : string) (age : Z) : User :=
  {| ID := id; Username := name; Email := name +:+ "@example.com";
     Age := age; Active := true; CreatedAt := 0; UpdatedAt := 0;
     DeletedAt := None |}.

(** *** Worlds to run the repository in *)

Definition repo : GormCacheRepository := NewUserCacheRepository.

(** The same repository with [UseNotFoundCache: false]. *)
Definition repo_no_negative : GormCacheRepository :=
  NewGormCacheRepository
    {| TableName := "users_cache";
       Expiration := 10 * 60 * 1000000000;
       UseNotFoundCache := false |}
    "id".

(** A repository of users by name, [GormCacheRepository[User, string]]. *)
Definition repo_by_name : GormCacheRepository :=
  NewGormCacheRepository
    {| TableName := "users_by_name_cache";
       Expiration := 10 * 60 * 1000000000;
       UseNotFoundCache := true |}
    "username".

Definition users_table : MemDB User :=
  {| rows := [user 1 "user1" 20; user 2 "user2" 25]; failure := None |}.

Definition unavailable : MemDB User :=
  {| rows := [user 1 "user1" 20; user 2 "user2" 25];
     failure := Some (gorm.ErrOther "connection refused") |}.

(** Nothing cached yet; the caller holds one entity, at address 0. *)
Definition start : World (MemDB User) User N :=
  init [user 1 "user1" 21] users_table 0.

(** The same with the database unavailable. *)
Definition offline : World (MemDB User) User N :=
  init [user 1 "user1" 21] unavailable 0.

(** User 1 has been read, and is cached; users 2 and 3 are not. *)
Definition user1_cached : World (MemDB User) User N :=
  snd (GetByID repo 1%N start).

(** User 1 and the collection are cached. *)
Definition all_cached : World (MemDB User) User N :=
  snd (GetAll repo user1_cached).

(** The collection is cached in the repository of users by name. *)
Definition all_cached_by_name : World (MemDB User) User string :=
  snd (GetAll repo_by_name (init [] users_table 0)).

End examples.

(** * Properties *)

Section Properties.
Context {db T ID : Type} `{Countable ID} `{!Inhabited T}.
Context `{!gorm.DB db T ID} `{!Formatter ID}.

Implicit Types (r : GormCacheRepository) (w : World db T ID) (id : ID).
Implicit Types (key : string) (entity p : ptr).

(** ** The cache table *)

Lemma Value_sleep key d w :
  cache_Value key (sleep d w) = None \/
  cache_Value key (sleep d w) = cache_Value key w.
Proof.
  unfold cache_Value, cache2go.Value, cache2go.expired; simpl.
  destruct (cacheTable w !! key) as [item|]; [|by left].
  destruct (cache2go.lifeSpan item =? 0); simpl; [by right|].
  destruct (cache2go.createdOn item + cache2go.lifeSpan item <=? now w + Z.max 0 d) eqn:E1;
    [by left|].
  right.
  destruct (cache2go.createdOn item + cache2go.lifeSpan item <=? now w) eqn:E2;
    [|done].
  apply Z.leb_le in E2. apply Z.leb_gt in E1. lia.
Qed.

(** A miss stays a miss while nothing is written. *)
Lemma Value_sleep_miss key d w :
  cache_Value key w = None -> cache_Value key (sleep d w) = None.
Proof. intros Hm. destruct (Value_sleep key d w) as [->| ->]; done. Qed.

(** A hit that is still a hit later is a hit on the same data. *)
Lemma Value_sleep_hit key d w :
  is_Some (cache_Value key (sleep d w)) ->
  cache_Value key (sleep d w) = cache_Value key w.
Proof.
  intros [x Hx]. destruct (Value_sleep key d w) as [Hn|]; [congruence|done].
Qed.

(** A hit returns the data of the item in the table. *)
Lemma Value_table key w dat :
  cache_Value key w = Some dat ->
  exists item, cacheTable w !! key = Some item /\ cache2go.data item = dat.
Proof.
  unfold cache_Value, cache2go.Value.
  destruct (cacheTable w !! key) as [item|]; [|done].
  destruct (cache2go.expired (now w) item); [done|].
  simpl. intros [= <-]. by exists item.
Qed.

(** An item added with life span [span] is there [d] later, when [span] is
    zero or has not run out. *)
Lemma Value_Add_sleep key span dat d w :
  span = 0 \/ Z.max 0 d < span ->
  cache_Value key (sleep d (cache_Add key span dat w)) = Some dat.
Proof.
  intros Hs.
  unfold cache_Value, cache2go.Value, cache_Add, cache2go.Add; simpl.
  rewrite lookup_insert_eq. unfold cache2go.expired; simpl.
  destruct Hs as [->|Hs]; [done|].
  destruct (span =? 0); [done|]. simpl.
  destruct (now w + span <=? now w + Z.max 0 d) eqn:E; [|done].
  apply Z.leb_le in E. lia.
Qed.

Lemma sleep_0 w : sleep 0 w = w.
Proof. destruct w. unfold sleep. simpl. f_equal. lia. Qed.

Lemma new_T_lookup w :
  heap (snd (new_T w)) !!! fst (new_T w) = (inhabitant : T).
Proof. simpl. by rewrite list_lookup_total_middle. Qed.

(** ** GetByID *)

Lemma GetByID_hit_Entity r id w p :
  cache_Value (buildCacheKey r id) w = Some (Entity p) ->
  GetByID r id w = (Return (Some p, None), w).
Proof. intros Hv. unfold GetByID. by rewrite Hv. Qed.

Lemma GetByID_hit_NotFound r id w :
  cache_Value (buildCacheKey r id) w = Some NotFound ->
  GetByID r id w = (Return (None, Some ErrRecordNotFound), w).
Proof. intros Hv. unfold GetByID. by rewrite Hv. Qed.

Lemma GetByID_hit_unchanged r id w :
  is_Some (cache_Value (buildCacheKey r id) w) ->
  snd (GetByID r id w) = w.
Proof.
  intros [dat Hv]. unfold GetByID. rewrite Hv. by destruct dat.
Qed.

(** What a miss does, by the answer of the database. *)
Lemma GetByID_miss r id w d t err :
  cache_Value (buildCacheKey r id) w = None ->
  gorm.First (primaryKey r +:+ " = ?") id inhabitant (database w) = (d, t, err) ->
  let entity := length (heap w) in
  let w1 := emit (DBFirst (primaryKey r +:+ " = ?") id err)
              (set_store (heap w ++ [t]) d w) in
  GetByID r id w =
  match err with
  | Some e =>
      (Return (None, Some e),
       if UseNotFoundCache (config r) && gorm.errors_Is e ErrRecordNotFound
       then cache_Add (buildCacheKey r id) (Expiration (config r)) NotFound w1
       else w1)
  | None =>
      (Return (Some entity, None),
       cache_Add (buildCacheKey r id) (Expiration (config r)) (Entity entity) w1)
  end.
Proof.
  intros Hv Hq. unfold GetByID. rewrite Hv.
  unfold new_T, db_First. cbn [heap database set_store].
  rewrite list_lookup_total_middle by done. rewrite Hq.
  assert (<[length (heap w) := t]> (heap w ++ [inhabitant]) = heap w ++ [t]) as ->.
  { rewrite insert_app_r_alt by lia. by rewrite Nat.sub_diag. }
  by destruct err.
Qed.

(** After a successful [GetByID] the entity it returned is in the table
    under the key of the id. *)
Lemma GetByID_success_cached r id w p w1 :
  GetByID r id w = (Return (Some p, None), w1) ->
  exists item, cacheTable w1 !! buildCacheKey r id = Some item
               /\ cache2go.data item = Entity p.
Proof.
  intros Hg. destruct (cache_Value (buildCacheKey r id) w) as [dat|] eqn:Hv.
  - unfold GetByID in Hg. rewrite Hv in Hg.
    destruct dat; simplify_eq. by apply Value_table.
  - destruct (gorm.First (primaryKey r +:+ " = ?") id inhabitant (database w))
      as [[d t] err] eqn:Hq.
    rewrite (GetByID_miss _ _ _ _ _ _ Hv Hq) in Hg.
    destruct err; simplify_eq. simpl.
    unfold cache2go.Add. rewrite lookup_insert_eq. by eexists.
Qed.

(** C3: when the key of [id] has a live cache entry, [GetByID] leaves the
    world as it is (no call on the database); a cached entity is returned,
    the negative marker gives [ErrRecordNotFound]; a second [GetByID] after
    a successful one, made while the entry is live, returns the same
    pointer and again leaves the world as it is. *)
Theorem GetByID_cache_hit r id w :
  (is_Some (cache_Value (buildCacheKey r id) w) -> snd (GetByID r id w) = w)
  /\ (forall p, cache_Value (buildCacheKey r id) w = Some (Entity p) ->
        GetByID r id w = (Return (Some p, None), w))
  /\ (cache_Value (buildCacheKey r id) w = Some NotFound ->
        GetByID r id w = (Return (None, Some ErrRecordNotFound), w))
  /\ (forall p w1 d,
        GetByID r id w = (Return (Some p, None), w1) ->
        is_Some (cache_Value (buildCacheKey r id) (sleep d w1)) ->
        GetByID r id (sleep d w1) = (Return (Some p, None), sleep d w1))
  /\ (forall p w1,
        GetByID r id w = (Return (Some p, None), w1) ->
        0 <= Expiration (config r) ->
        GetByID r id w1 = (Return (Some p, None), w1)).
Proof.
  split; [apply GetByID_hit_unchanged|].
  split; [intros p; apply GetByID_hit_Entity|].
  split; [apply GetByID_hit_NotFound|].
  split.
  - intros p w1 d Hg [dat Hv].
    apply GetByID_hit_Entity. rewrite Hv. f_equal.
    destruct (GetByID_success_cached _ _ _ _ _ Hg) as (item & Hi & Hd).
    destruct (Value_table _ _ _ Hv) as (item' & Hi' & Hd').
    simpl in Hi'. congruence.
  - intros p w1 Hg Hexp.
    destruct (cache_Value (buildCacheKey r id) w) as [dat|] eqn:Hv.
    + pose proof Hg as Hg'. unfold GetByID in Hg'. rewrite Hv in Hg'.
      destruct dat; simplify_eq. by apply GetByID_hit_Entity.
    + destruct (gorm.First (primaryKey r +:+ " = ?") id inhabitant (database w))
        as [[d t] err] eqn:Hq.
      rewrite (GetByID_miss _ _ _ _ _ _ Hv Hq) in Hg.
      destruct err; simplify_eq.
      apply GetByID_hit_Entity.
      rewrite <- (sleep_0 (cache_Add _ _ _ _)).
      apply Value_Add_sleep. lia.
Qed.

Lemma db_calls_app (evs1 evs2 : list (Event ID)) :
  db_calls (evs1 ++ evs2) = (db_calls evs1 + db_calls evs2)%nat.
Proof. unfold db_calls. by rewrite filter_app, length_app. Qed.

(** A miss makes exactly one call on the database, a [First], before
    anything else. *)
Lemma GetByID_miss_trace r id w :
  cache_Value (buildCacheKey r id) w = None ->
  exists err rest,
    trace (snd (GetByID r id w))
    = trace w ++ DBFirst (primaryKey r +:+ " = ?") id err :: rest
    /\ db_calls rest = 0%nat.
Proof.
  intros Hv.
  destruct (gorm.First (primaryKey r +:+ " = ?") id inhabitant (database w))
    as [[d t] err] eqn:Hq.
  rewrite (GetByID_miss _ _ _ _ _ _ Hv Hq).
  exists err. destruct err as [e|]; simpl.
  - destruct (UseNotFoundCache (config r) && gorm.errors_Is e ErrRecordNotFound);
      simpl; rewrite <- ?app_assoc; eexists; split; by eauto.
  - rewrite <- app_assoc. eexists; split; by eauto.
Qed.

(** C4: on a cache miss [GetByID] asks the database; when that fails with
    [e], [e] itself is returned.  If [e] is a not-found and negative caching
    is on, the marker is added with the configured life span, and a second
    call within the life span is answered from the cache: one database call
    for the two.  Otherwise (negative caching off, or another error) the
    cache table is left as it was and a second call asks the database
    again. *)
Theorem GetByID_cache_miss_store_error r id w d t e :
  cache_Value (buildCacheKey r id) w = None ->
  gorm.First (primaryKey r +:+ " = ?") id inhabitant (database w)
    = (d, t, Some e) ->
  let key := buildCacheKey r id in
  let cond := primaryKey r +:+ " = ?" in
  let span := Expiration (config r) in
  let w1 := snd (GetByID r id w) in
  fst (GetByID r id w) = Return (None, Some e)
  /\ (UseNotFoundCache (config r) = true ->
      gorm.errors_Is e ErrRecordNotFound = true ->
      cacheTable w1 = cache2go.Add key span NotFound (now w) (cacheTable w)
      /\ trace w1 = trace w ++ [DBFirst cond id (Some e); CacheAdd key span NotFound]
      /\ forall dt, span = 0 \/ Z.max 0 dt < span ->
           GetByID r id (sleep dt w1)
           = (Return (None, Some ErrRecordNotFound), sleep dt w1)
           /\ db_calls (trace (snd (GetByID r id (sleep dt w1))))
              = S (db_calls (trace w)))
  /\ (UseNotFoundCache (config r) = false
      \/ gorm.errors_Is e ErrRecordNotFound = false ->
      cacheTable w1 = cacheTable w
      /\ trace w1 = trace w ++ [DBFirst cond id (Some e)]
      /\ forall dt,
           db_calls (trace (snd (GetByID r id (sleep dt w1))))
           = S (S (db_calls (trace w)))).
Proof.
  intros Hv Hq key cond span w1. subst w1.
  rewrite (GetByID_miss _ _ _ _ _ _ Hv Hq). cbn [fst snd].
  split; [done|]. split.
  - intros -> ->. cbn [andb]. split; [done|]. split.
    { simpl. by rewrite <- app_assoc. }
    intros dt Hdt.
    rewrite (GetByID_hit_NotFound r id) by (by apply Value_Add_sleep).
    split; [done|]. simpl.
    rewrite <- app_assoc, db_calls_app. simpl. unfold db_calls at 2. simpl. lia.
  - intros Hoff.
    assert (UseNotFoundCache (config r) && gorm.errors_Is e ErrRecordNotFound
            = false) as ->.
    { destruct Hoff as [-> | ->]; [done|apply andb_false_r]. }
    split; [done|]. split; [done|].
    intros dt.
    edestruct (GetByID_miss_trace r id) as (err & rest & -> & Hrest).
    { apply Value_sleep_miss. exact Hv. }
    simpl. rewrite !db_calls_app.
    change (DBFirst (primaryKey r +:+ " = ?") id err :: rest)
      with ([DBFirst (primaryKey r +:+ " = ?") id err] ++ rest).
    rewrite db_calls_app, Hrest. unfold db_calls at 2 3. simpl. lia.
Qed.

(** ** Save and Delete *)

(** What [Save] does, by the answer of the database. *)
Lemma Save_unfold r entity w d t err :
  gorm.Save (heap w !!! entity) (database w) = (d, t, err) ->
  let w1 := emit (DBSave entity err)
              (set_store (<[entity := t]> (heap w)) d w) in
  Save r entity w =
  match err with
  | Some e => (Some e, w1)
  | None =>
      (None,
       cache_Delete "all"
         (cache_Add "" (Expiration (config r)) (Entity entity) w1))
  end.
Proof. intros Hq. unfold Save, db_Save. rewrite Hq. by destruct err. Qed.

(** What [Delete] does, by the answer of the database. *)
Lemma Delete_unfold r id w d err :
  gorm.Delete (primaryKey r +:+ " = ?") id (database w) = (d, err) ->
  let w1 := emit (DBDelete (primaryKey r +:+ " = ?") id err)
              (set_store (heap w) d w) in
  Delete r id w =
  match err with
  | Some e => (Some e, w1)
  | None =>
      (None, cache_Delete "all" (cache_Delete (buildCacheKey r id) w1))
  end.
Proof. intros Hq. unfold Delete, db_Delete. rewrite Hq. by destruct err. Qed.

(** C5: [Save] and [Delete] call the database first: the call is the first
    thing they do, it is their only call on the database, and what follows
    it are writes to the cache.  When the call fails, its error is what
    they return, nothing follows it, and the cache table is as it was.
    The call is the write itself: the database [Save] and [Delete] leave is
    the one [db.Save] and [db.Delete] answered with, [Save] hands its entity
    to [db.Save] and stores what it wrote back through the pointer, the
    error they return and record is the one of that answer, and on success
    the cache writes are made on the table as it was before the call. *)
Theorem Save_Delete_store_first r w :
  (forall entity, exists err rest,
      trace (snd (Save r entity w)) = trace w ++ DBSave entity err :: rest
      /\ fst (Save r entity w) = err
      /\ Forall (fun ev => is_cache_write ev = true) rest)
  /\ (forall entity d t e,
        gorm.Save (heap w !!! entity) (database w) = (d, t, Some e) ->
        fst (Save r entity w) = Some e
        /\ cacheTable (snd (Save r entity w)) = cacheTable w
        /\ trace (snd (Save r entity w)) = trace w ++ [DBSave entity (Some e)])
  /\ (forall id, exists err rest,
        trace (snd (Delete r id w))
        = trace w ++ DBDelete (primaryKey r +:+ " = ?") id err :: rest
        /\ fst (Delete r id w) = err
        /\ Forall (fun ev => is_cache_write ev = true) rest)
  /\ (forall id d e,
        gorm.Delete (primaryKey r +:+ " = ?") id (database w) = (d, Some e) ->
        fst (Delete r id w) = Some e
        /\ cacheTable (snd (Delete r id w)) = cacheTable w
        /\ trace (snd (Delete r id w))
           = trace w ++ [DBDelete (primaryKey r +:+ " = ?") id (Some e)])
  /\ (forall entity d t err,
        gorm.Save (heap w !!! entity) (database w) = (d, t, err) ->
        fst (Save r entity w) = err
        /\ database (snd (Save r entity w)) = d
        /\ heap (snd (Save r entity w)) = <[entity := t]> (heap w)
        /\ (exists rest,
              trace (snd (Save r entity w))
              = trace w ++ DBSave entity err :: rest
              /\ Forall (fun ev => is_cache_write ev = true) rest)
        /\ (err = None ->
            cacheTable (snd (Save r entity w))
            = cache2go.Delete "all"
                (cache2go.Add "" (Expiration (config r)) (Entity entity)
                   (now w) (cacheTable w))))
  /\ (forall id d err,
        gorm.Delete (primaryKey r +:+ " = ?") id (database w) = (d, err) ->
        fst (Delete r id w) = err
        /\ database (snd (Delete r id w)) = d
        /\ heap (snd (Delete r id w)) = heap w
        /\ (exists rest,
              trace (snd (Delete r id w))
              = trace w ++ DBDelete (primaryKey r +:+ " = ?") id err :: rest
              /\ Forall (fun ev => is_cache_write ev = true) rest)
        /\ (err = None ->
            cacheTable (snd (Delete r id w))
            = cache2go.Delete "all"
                (cache2go.Delete (buildCacheKey r id) (cacheTable w)))).
Proof.
  split; [|split; [|split; [|split; [|split]]]].
  - intros entity.
    destruct (gorm.Save (heap w !!! entity) (database w)) as [[d t] err] eqn:Hq.
    rewrite (Save_unfold r _ _ _ _ _ Hq). exists err.
    destruct err; simpl; rewrite <- ?app_assoc; eexists;
      (split; [reflexivity|split; [reflexivity|repeat constructor]]).
  - intros entity d t e Hq.
    by rewrite (Save_unfold r _ _ _ _ _ Hq).
  - intros id.
    destruct (gorm.Delete (primaryKey r +:+ " = ?") id (database w))
      as [d err] eqn:Hq.
    rewrite (Delete_unfold r _ _ _ _ Hq). exists err.
    destruct err; simpl; rewrite <- ?app_assoc; eexists;
      (split; [reflexivity|split; [reflexivity|repeat constructor]]).
  - intros id d e Hq.
    by rewrite (Delete_unfold r _ _ _ _ Hq).
  - intros entity d t err Hq.
    rewrite (Save_unfold r _ _ _ _ _ Hq).
    destruct err as [e|]; cbn [fst snd].
    + split; [done|]. split; [done|]. split; [done|]. split; [|done].
      exists []. split; [done|constructor].
    + split; [done|]. split; [done|]. split; [done|]. split; [|done].
      eexists. simpl. rewrite <- !app_assoc. split; [reflexivity|].
      by repeat constructor.
  - intros id d err Hq.
    rewrite (Delete_unfold r _ _ _ _ Hq).
    destruct err as [e|]; cbn [fst snd].
    + split; [done|]. split; [done|]. split; [done|]. split; [|done].
      exists []. split; [done|constructor].
    + split; [done|]. split; [done|]. split; [done|]. split; [|done].
      eexists. simpl. rewrite <- !app_assoc. split; [reflexivity|].
      by repeat constructor.
Qed.

(** A successful [Save] writes the entity under the key
    [buildCacheKeyFromEntity] gives, the empty string, and under no other
    key. *)
Lemma Save_success_table r entity w w1 :
  Save r entity w = (None, w1) ->
  cacheTable w1
  = delete "all"
      (<[ "" := {| cache2go.data := Entity entity;
                   cache2go.lifeSpan := Expiration (config r);
                   cache2go.createdOn := now w |} ]> (cacheTable w)).
Proof.
  destruct (gorm.Save (heap w !!! entity) (database w)) as [[d t] err] eqn:Hq.
  rewrite (Save_unfold r _ _ _ _ _ Hq). destruct err; [done|].
  by intros [= <-].
Qed.

Lemma Delete_success_table r id w w1 :
  Delete r id w = (None, w1) ->
  cacheTable w1 = delete "all" (delete (buildCacheKey r id) (cacheTable w)).
Proof.
  destruct (gorm.Delete (primaryKey r +:+ " = ?") id (database w))
    as [d err] eqn:Hq.
  rewrite (Delete_unfold r _ _ _ _ Hq). destruct err; [done|].
  by intros [= <-].
Qed.

(** ** GetAll *)

Lemma GetAll_hit r w ps :
  cache_Value "all" w = Some (Entities ps) ->
  GetAll r w = (Return (Some ps, None), w).
Proof. intros Hv. unfold GetAll. by rewrite Hv. Qed.

Lemma GetAll_hit_unchanged r w :
  is_Some (cache_Value "all" w) -> snd (GetAll r w) = w.
Proof. intros [dat Hv]. unfold GetAll. rewrite Hv. by destruct dat. Qed.

(** What a miss does, by the answer of the database. *)
Lemma GetAll_miss r w d ts err :
  cache_Value "all" w = None ->
  gorm.Find (database w) = (d, ts, err) ->
  let entities := seq (length (heap w)) (length ts) in
  let w1 := emit (DBFind entities err) (set_store (heap w ++ ts) d w) in
  GetAll r w =
  match err with
  | Some e => (Return (None, Some e), w1)
  | None =>
      (Return (Some entities, None),
       cache_Add "all" (Expiration (config r)) (Entities entities) w1)
  end.
Proof.
  intros Hv Hq. unfold GetAll. rewrite Hv. unfold db_Find. rewrite Hq.
  by destruct err.
Qed.

(** The pointers a query returns point to the rows it returned. *)
Lemma seq_heap_lookup (h ts : list T) i t :
  ts !! i = Some t -> (h ++ ts) !! (length h + i)%nat = Some t.
Proof. intros Ht. by rewrite lookup_app_r, Nat.add_comm, Nat.add_sub by lia. Qed.

(** C8, amended: with a live collection under ["all"], [GetAll] returns it and
    leaves the world as it is (no call on the database).  On a miss it calls
    [Find]; the entities found are returned and added under ["all"] with
    the configured life span; an error of [Find] is returned as it is and
    the cache table is left as it was. *)
Theorem GetAll_cached_or_fetched r w :
  (forall ps, cache_Value "all" w = Some (Entities ps) ->
      GetAll r w = (Return (Some ps, None), w))
  /\ (is_Some (cache_Value "all" w) -> snd (GetAll r w) = w)
  /\ (forall d ts,
        cache_Value "all" w = None ->
        gorm.Find (database w) = (d, ts, None) ->
        let entities := seq (length (heap w)) (length ts) in
        let w1 := snd (GetAll r w) in
        fst (GetAll r w) = Return (Some entities, None)
        /\ cacheTable w1
           = cache2go.Add "all" (Expiration (config r)) (Entities entities)
               (now w) (cacheTable w)
        /\ trace w1
           = trace w ++ [DBFind entities None;
                        CacheAdd "all" (Expiration (config r)) (Entities entities)]
        /\ (forall i t, ts !! i = Some t ->
               entities !! i = Some (length (heap w) + i)%nat
               /\ heap w1 !! (length (heap w) + i)%nat = Some t)
        /\ database w1 = d)
  /\ (forall d ts e,
        cache_Value "all" w = None ->
        gorm.Find (database w) = (d, ts, Some e) ->
        let w1 := snd (GetAll r w) in
        fst (GetAll r w) = Return (None, Some e)
        /\ cacheTable w1 = cacheTable w
        /\ (exists ps, trace w1 = trace w ++ [DBFind ps (Some e)])
        /\ database w1 = d).
Proof.
  split; [intros ps; apply GetAll_hit|].
  split; [apply GetAll_hit_unchanged|].
  split.
  - intros d ts Hv Hq entities w1. subst w1.
    rewrite (GetAll_miss r _ _ _ _ Hv Hq). cbn [fst snd].
    split; [done|]. split; [done|]. split.
    { simpl. by rewrite <- app_assoc. }
    split; [|done]. intros i t Ht. split.
    + apply lookup_seq. split; [done|]. by eapply lookup_lt_Some.
    + simpl. by apply seq_heap_lookup.
  - intros d ts e Hv Hq w1. subst w1.
    rewrite (GetAll_miss r _ _ _ _ Hv Hq). cbn [fst snd].
    split; [done|]. split; [done|]. split; [by eexists|done].
Qed.

(** ** ClearCache and ClearAllCache *)

(** C7, amended: [ClearCache] deletes the key of [id] from the cache table
    and nothing else: every other key keeps its entry (the ["all"] key too,
    whenever it is not the key of [id]), the database and the heap are not
    touched, and the result is [nil], also when the key had no entry.
    [ClearAllCache] empties the table, touches nothing else and returns
    [nil]. *)
Theorem ClearCache_deletes_one_key r w :
  (forall id,
      let w1 := snd (ClearCache r id w) in
      fst (ClearCache r id w) = None
      /\ cacheTable w1 = delete (buildCacheKey r id) (cacheTable w)
      /\ (forall key, key <> buildCacheKey r id ->
            cacheTable w1 !! key = cacheTable w !! key)
      /\ (buildCacheKey r id <> "all" ->
            cacheTable w1 !! "all" = cacheTable w !! "all")
      /\ (cacheTable w !! buildCacheKey r id = None ->
            cacheTable w1 = cacheTable w)
      /\ database w1 = database w
      /\ heap w1 = heap w
      /\ trace w1 = trace w ++ [CacheDelete (buildCacheKey r id)])
  /\ (let w1 := snd (ClearAllCache r w) in
      fst (ClearAllCache r w) = None
      /\ cacheTable w1 = ∅
      /\ database w1 = database w
      /\ heap w1 = heap w
      /\ trace w1 = trace w ++ [CacheFlush]).
Proof.
  split.
  - intros id. simpl. unfold cache2go.Delete.
    split; [done|]. split; [done|].
    split; [intros key Hk; by rewrite lookup_delete_ne|].
    split; [intros Hk; by rewrite lookup_delete_ne|].
    split; [apply delete_id|]. done.
  - simpl. by unfold cache2go.Flush.
Qed.

(** ** BatchGet *)

Lemma BatchGet_fill_trace r entities w :
  trace (BatchGet_fill r entities w)
  = trace w
    ++ map (fun entity => CacheAdd "" (Expiration (config r)) (Entity entity))
         entities.
Proof.
  revert w. induction entities as [|entity entities IH]; intros w; simpl.
  - by rewrite app_nil_r.
  - rewrite IH. simpl. by rewrite <- app_assoc.
Qed.

(** The second loop writes under the empty key only. *)
Lemma BatchGet_fill_table r entities w key :
  key <> "" ->
  cacheTable (BatchGet_fill r entities w) !! key = cacheTable w !! key.
Proof.
  intros Hk. revert w. induction entities as [|entity entities IH];
    intros w; simpl; [done|].
  rewrite IH. simpl. unfold cache2go.Add. by rewrite lookup_insert_ne.
Qed.

(** The second loop touches neither the heap, nor the database, nor the
    clock. *)
Lemma BatchGet_fill_heap r entities w :
  heap (BatchGet_fill r entities w) = heap w
  /\ database (BatchGet_fill r entities w) = database w
  /\ now (BatchGet_fill r entities w) = now w.
Proof.
  revert w. induction entities as [|entity entities IH]; intros w; [done|].
  cbn [BatchGet_fill]. exact (IH _).
Qed.

(** [BatchGet] after its first loop. *)
Lemma BatchGet_unfold r ids w result uncachedIDs d ts err :
  BatchGet_lookup r w ids ∅ [] = Return (result, uncachedIDs) ->
  gorm.FindIn (primaryKey r +:+ " IN ?") uncachedIDs (database w)
    = (d, ts, err) ->
  let entities := seq (length (heap w)) (length ts) in
  let w1 := emit (DBFindIn (primaryKey r +:+ " IN ?") uncachedIDs entities err)
              (set_store (heap w ++ ts) d w) in
  BatchGet r ids w =
  match uncachedIDs with
  | [] => (Return (Some result, None), w)
  | _ :: _ =>
      match err with
      | Some e => (Return (None, Some e), w1)
      | None => (Return (Some result, None), BatchGet_fill r entities w1)
      end
  end.
Proof.
  intros Hl Hq. unfold BatchGet. rewrite Hl.
  destruct uncachedIDs as [|id0 ids0]; [done|].
  cbn [length Nat.ltb Nat.leb]. unfold db_FindIn. rewrite Hq.
  by destruct err.
Qed.

(** ** The collection under ["all"] *)

Lemma all_is_fresh_keep w w1 evs :
  trace w1 = trace w ++ evs ->
  Forall (fun ev => is_db_write ev = false) evs ->
  (forall item ps,
      cacheTable w1 !! "all" = Some item ->
      cache2go.data item = Entities ps ->
      cacheTable w !! "all" = Some item) ->
  all_is_fresh w -> all_is_fresh w1.
Proof.
  intros Ht Hevs Htbl Hfresh item ps Hi Hd.
  destruct (Hfresh item ps (Htbl _ _ Hi Hd) Hd) as (before & after & Hw & Ha).
  exists before, (after ++ evs). split.
  - by rewrite Ht, Hw, <- app_assoc.
  - by apply Forall_app.
Qed.

Lemma all_is_fresh_evicted w : cacheTable w !! "all" = None -> all_is_fresh w.
Proof. intros Hn item ps Hi. congruence. Qed.

Lemma all_after_insert (table : gmap string CacheItem) key item0 item ps :
  (forall qs, cache2go.data item0 <> Entities qs) ->
  <[key := item0]> table !! "all" = Some item ->
  cache2go.data item = Entities ps ->
  table !! "all" = Some item.
Proof.
  intros Hne Hi Hd. destruct (decide (key = "all")) as [->|Hk].
  - rewrite lookup_insert_eq in Hi. simplify_eq. by destruct (Hne ps).
  - by rewrite lookup_insert_ne in Hi.
Qed.

Lemma all_after_delete (table : gmap string CacheItem) key item :
  delete key table !! "all" = Some item -> table !! "all" = Some item.
Proof.
  intros Hi. destruct (decide (key = "all")) as [->|Hk].
  - by rewrite lookup_delete_eq in Hi.
  - by rewrite lookup_delete_ne in Hi.
Qed.

Lemma GetByID_keeps_fresh r id w :
  all_is_fresh w -> all_is_fresh (snd (GetByID r id w)).
Proof.
  intros Hf. destruct (cache_Value (buildCacheKey r id) w) as [dat|] eqn:Hv.
  { rewrite GetByID_hit_unchanged; [done|by eexists]. }
  destruct (gorm.First (primaryKey r +:+ " = ?") id inhabitant (database w))
    as [[d t] err] eqn:Hq.
  rewrite (GetByID_miss _ _ _ _ _ _ Hv Hq).
  destruct err as [e|]; cbn [snd].
  - destruct (UseNotFoundCache (config r) && gorm.errors_Is e ErrRecordNotFound).
    + eapply all_is_fresh_keep; [| |intros item ps|exact Hf].
      * simpl. by rewrite <- app_assoc.
      * by repeat constructor.
      * simpl. by apply all_after_insert.
    + eapply all_is_fresh_keep; [| |intros item ps|exact Hf].
      * by simpl.
      * by repeat constructor.
      * by simpl.
  - eapply all_is_fresh_keep; [| |intros item ps|exact Hf].
    + simpl. by rewrite <- app_assoc.
    + by repeat constructor.
    + simpl. by apply all_after_insert.
Qed.

Lemma GetAll_keeps_fresh r w :
  all_is_fresh w -> all_is_fresh (snd (GetAll r w)).
Proof.
  intros Hf. destruct (cache_Value "all" w) as [dat|] eqn:Hv.
  { rewrite GetAll_hit_unchanged; [done|by eexists]. }
  destruct (gorm.Find (database w)) as [[d ts] err] eqn:Hq.
  rewrite (GetAll_miss r _ _ _ _ Hv Hq).
  destruct err as [e|]; cbn [snd].
  - eapply all_is_fresh_keep; [| |intros item ps|exact Hf].
    + by simpl.
    + by repeat constructor.
    + by simpl.
  - intros item ps. simpl. unfold cache2go.Add. rewrite lookup_insert_eq.
    intros [= <-]. simpl. intros [= <-].
    eexists (trace w), [_]. split.
    + by rewrite <- app_assoc.
    + by repeat constructor.
Qed.

Lemma Save_keeps_fresh r entity w :
  all_is_fresh w -> all_is_fresh (snd (Save r entity w)).
Proof.
  intros Hf.
  destruct (gorm.Save (heap w !!! entity) (database w)) as [[d t] err] eqn:Hq.
  rewrite (Save_unfold r _ _ _ _ _ Hq).
  destruct err as [e|]; cbn [snd].
  - eapply all_is_fresh_keep; [| |intros item ps|exact Hf].
    + by simpl.
    + by repeat constructor.
    + by simpl.
  - apply all_is_fresh_evicted. simpl. apply lookup_delete_eq.
Qed.

Lemma Delete_keeps_fresh r id w :
  all_is_fresh w -> all_is_fresh (snd (Delete r id w)).
Proof.
  intros Hf.
  destruct (gorm.Delete (primaryKey r +:+ " = ?") id (database w))
    as [d err] eqn:Hq.
  rewrite (Delete_unfold r _ _ _ _ Hq).
  destruct err as [e|]; cbn [snd].
  - eapply all_is_fresh_keep; [| |intros item ps|exact Hf].
    + by simpl.
    + by repeat constructor.
    + by simpl.
  - apply all_is_fresh_evicted. simpl. apply lookup_delete_eq.
Qed.

Lemma BatchGet_keeps_fresh r ids w :
  all_is_fresh w -> all_is_fresh (snd (BatchGet r ids w)).
Proof.
  intros Hf.
  destruct (BatchGet_lookup r w ids ∅ []) as [[result uncachedIDs]|] eqn:Hl.
  2:{ unfold BatchGet. by rewrite Hl. }
  destruct (gorm.FindIn (primaryKey r +:+ " IN ?") uncachedIDs (database w))
    as [[d ts] err] eqn:Hq.
  rewrite (BatchGet_unfold r _ _ _ _ _ _ _ Hl Hq).
  destruct uncachedIDs as [|id0 ids0]; [done|].
  destruct err as [e|]; cbn [snd].
  - eapply all_is_fresh_keep; [| |intros item ps|exact Hf].
    + by simpl.
    + by repeat constructor.
    + by simpl.
  - eapply all_is_fresh_keep; [| |intros item ps|exact Hf].
    + rewrite BatchGet_fill_trace. simpl. by rewrite <- app_assoc.
    + constructor; [done|]. apply Forall_map. by apply Forall_true.
    + by rewrite BatchGet_fill_table.
Qed.

Lemma exec_keeps_fresh r c w :
  all_is_fresh w -> all_is_fresh (exec r c w).
Proof.
  intros Hf. destruct c; simpl.
  - by apply GetByID_keeps_fresh.
  - by apply GetAll_keeps_fresh.
  - by apply Save_keeps_fresh.
  - by apply Delete_keeps_fresh.
  - apply (all_is_fresh_keep w _ [CacheDelete (buildCacheKey r id)]);
      [done|by repeat constructor| |exact Hf].
    intros item ps. simpl. intros Hi _. by eapply all_after_delete.
  - apply all_is_fresh_evicted. simpl. apply lookup_empty.
  - by apply BatchGet_keeps_fresh.
  - apply (all_is_fresh_keep w _ []); [|constructor| |exact Hf].
    + simpl. by rewrite app_nil_r.
    + by simpl.
  - apply (all_is_fresh_keep w _ []); [|constructor| |exact Hf].
    + simpl. by rewrite app_nil_r.
    + by simpl.
Qed.

Lemma exec_all_keeps_fresh r cs w :
  all_is_fresh w -> all_is_fresh (exec_all r cs w).
Proof.
  revert w. induction cs as [|c cs IH]; intros w Hf; simpl; [done|].
  apply IH. by apply exec_keeps_fresh.
Qed.

(** C6: a [Save] and a [Delete] that succeed leave no entry under ["all"]
    ([Delete] none under the key of the id either), whatever was there; the
    collection cached under ["all"] is, in every world a caller can reach,
    the result of a [Find] made after the last successful [Save] or
    [Delete]; and a [GetAll] after a successful [Save] calls [Find]
    again. *)
Theorem Save_Delete_evict_all r :
  (forall entity w w1,
      Save r entity w = (None, w1) ->
      cacheTable w1 !! "all" = None
      /\ forall dt, exists ps err rest,
           trace (snd (GetAll r (sleep dt w1)))
           = trace w1 ++ DBFind ps err :: rest)
  /\ (forall id w w1,
        Delete r id w = (None, w1) ->
        cacheTable w1 !! "all" = None
        /\ cacheTable w1 !! buildCacheKey r id = None)
  /\ (forall c w, all_is_fresh w -> all_is_fresh (exec r c w))
  /\ (forall h d t cs, all_is_fresh (exec_all r cs (init h d t))).
Proof.
  split; [|split; [|split]].
  - intros entity w w1 Hs.
    assert (cacheTable w1 !! "all" = None) as Hn.
    { rewrite (Save_success_table _ _ _ _ Hs). apply lookup_delete_eq. }
    split; [done|]. intros dt.
    assert (cache_Value "all" (sleep dt w1) = None) as Hv.
    { unfold cache_Value, cache2go.Value. simpl. by rewrite Hn. }
    destruct (gorm.Find (database (sleep dt w1))) as [[d ts] err] eqn:Hq.
    rewrite (GetAll_miss r _ _ _ _ Hv Hq).
    destruct err; simpl; rewrite <- ?app_assoc; by eauto.
  - intros id w w1 Hd. rewrite (Delete_success_table _ _ _ _ Hd). split.
    + apply lookup_delete_eq.
    + destruct (decide (buildCacheKey r id = "all")) as [->|Hk].
      * apply lookup_delete_eq.
      * rewrite lookup_delete_ne by done. apply lookup_delete_eq.
  - intros c w. apply exec_keeps_fresh.
  - intros h d t cs. apply exec_all_keeps_fresh.
    by apply all_is_fresh_evicted.
Qed.

(** ** BatchGet: the first loop *)

Lemma BatchGet_lookup_spec r w ids result uncachedIDs :
  match BatchGet_lookup r w ids result uncachedIDs with
  | Return (result1, uncachedIDs1) =>
      uncachedIDs1 = uncachedIDs ++ uncached r w ids
      /\ (forall id, result1 !! id = cached_entry r w ids result id)
      /\ Forall (fun id => forall ps,
                   cache_Value (buildCacheKey r id) w <> Some (Entities ps)) ids
  | Panic =>
      Exists (fun id => exists ps,
                 cache_Value (buildCacheKey r id) w = Some (Entities ps)) ids
  end.
Proof.
  revert result uncachedIDs.
  induction ids as [|id0 ids IH]; intros result uncachedIDs.
  { simpl. split; [by rewrite app_nil_r|]. split; [|constructor].
    intros id. unfold cached_entry. destruct (decide (id ∈ [])) as [Hin|]; [|done].
    by apply elem_of_nil in Hin. }
  cbn [BatchGet_lookup].
  destruct (cache_Value (buildCacheKey r id0) w) as [[|p|ps]|] eqn:Hv.
  - specialize (IH result uncachedIDs).
    destruct (BatchGet_lookup r w ids result uncachedIDs) as [[res1 unc1]|].
    2:{ by apply Exists_cons_tl. }
    destruct IH as (-> & Hres & Hall). split; [|split].
    + unfold uncached. rewrite filter_cons_False; [done|]. by rewrite Hv.
    + intros id. rewrite Hres. unfold cached_entry.
      destruct (decide (id = id0)) as [->|Hne].
      * rewrite Hv.
        rewrite (decide_True (P := id0 ∈ id0 :: ids)) by apply list_elem_of_here.
        by destruct (decide (id0 ∈ ids)).
      * destruct (decide (id ∈ ids)) as [Hin|Hin].
        -- rewrite decide_True; [done|]. by apply list_elem_of_further.
        -- rewrite decide_False; [done|]. rewrite elem_of_cons. by intros [?|?].
    + constructor; [|done]. intros ps. by rewrite Hv.
  - specialize (IH (<[id0 := p]> result) uncachedIDs).
    destruct (BatchGet_lookup r w ids (<[id0 := p]> result) uncachedIDs)
      as [[res1 unc1]|].
    2:{ by apply Exists_cons_tl. }
    destruct IH as (-> & Hres & Hall). split; [|split].
    + unfold uncached. rewrite filter_cons_False; [done|]. by rewrite Hv.
    + intros id. rewrite Hres. unfold cached_entry.
      destruct (decide (id = id0)) as [->|Hne].
      * rewrite Hv, lookup_insert_eq.
        rewrite (decide_True (P := id0 ∈ id0 :: ids)) by apply list_elem_of_here.
        by destruct (decide (id0 ∈ ids)).
      * rewrite lookup_insert_ne by done.
        destruct (decide (id ∈ ids)) as [Hin|Hin].
        -- rewrite decide_True; [done|]. by apply list_elem_of_further.
        -- rewrite decide_False; [done|]. rewrite elem_of_cons. by intros [?|?].
    + constructor; [|done]. intros ps. by rewrite Hv.
  - apply Exists_cons_hd. by exists ps.
  - specialize (IH result (uncachedIDs ++ [id0])).
    destruct (BatchGet_lookup r w ids result (uncachedIDs ++ [id0]))
      as [[res1 unc1]|].
    2:{ by apply Exists_cons_tl. }
    destruct IH as (-> & Hres & Hall). split; [|split].
    + unfold uncached. rewrite filter_cons_True by done.
      by rewrite <- app_assoc.
    + intros id. rewrite Hres. unfold cached_entry.
      destruct (decide (id = id0)) as [->|Hne].
      * rewrite Hv.
        rewrite (decide_True (P := id0 ∈ id0 :: ids)) by apply list_elem_of_here.
        by destruct (decide (id0 ∈ ids)).
      * destruct (decide (id ∈ ids)) as [Hin|Hin].
        -- rewrite decide_True; [done|]. by apply list_elem_of_further.
        -- rewrite decide_False; [done|]. rewrite elem_of_cons. by intros [?|?].
    + constructor; [|done]. intros ps. by rewrite Hv.
Qed.

(** Started empty, the first loop collects exactly the ids of [ids] with a
    live entity in the cache. *)
Lemma cached_entry_empty r w ids id p :
  cached_entry r w ids ∅ id = Some p
  <-> id ∈ ids /\ cache_Value (buildCacheKey r id) w = Some (Entity p).
Proof.
  unfold cached_entry. rewrite lookup_empty.
  destruct (decide (id ∈ ids)) as [Hin|Hin].
  - destruct (cache_Value (buildCacheKey r id) w) as [[|q|qs]|];
      split; try done; try (by intros [_ ?]).
    + by intros [= ->].
    + by intros [_ [= ->]].
  - split; [done|]. by intros [? _].
Qed.

(** The first loop either panics, on an id whose key holds a collection, or
    ends with the cached entities and the ids that missed. *)
Lemma BatchGet_lookup_cases r ids w :
  (BatchGet_lookup r w ids ∅ [] = Panic
   /\ Exists (fun id => exists ps,
                 cache_Value (buildCacheKey r id) w = Some (Entities ps)) ids)
  \/ (exists result,
        BatchGet_lookup r w ids ∅ [] = Return (result, uncached r w ids)
        /\ forall id p,
             result !! id = Some p
             <-> id ∈ ids /\ cache_Value (buildCacheKey r id) w = Some (Entity p)).
Proof.
  pose proof (BatchGet_lookup_spec r w ids ∅ []) as Hspec.
  destruct (BatchGet_lookup r w ids ∅ []) as [[result unc]|].
  - right. destruct Hspec as (-> & Hres & _). exists result. split; [done|].
    intros id p. rewrite Hres. apply cached_entry_empty.
  - by left.
Qed.

Lemma uncached_nil r w ids :
  Forall (fun id => is_Some (cache_Value (buildCacheKey r id) w)) ids ->
  uncached r w ids = [].
Proof.
  induction 1 as [|id ids [dat Hv] _ IH]; [done|].
  unfold uncached. rewrite filter_cons_False; [exact IH|]. by rewrite Hv.
Qed.

(** C10: when every requested id has a live entry in the cache, an entity
    or the negative marker, [BatchGet] leaves the world as it is (no call
    on the database) and returns, with a [nil] error, the map of exactly
    the ids with an entity; so it does for no ids at all. *)
Theorem BatchGet_all_cached r w :
  (forall ids,
      Forall (fun id =>
                cache_Value (buildCacheKey r id) w = Some NotFound
                \/ exists p, cache_Value (buildCacheKey r id) w = Some (Entity p))
        ids ->
      exists result,
        BatchGet r ids w = (Return (Some result, None), w)
        /\ forall id p,
             result !! id = Some p
             <-> id ∈ ids /\ cache_Value (buildCacheKey r id) w = Some (Entity p))
  /\ BatchGet r [] w = (Return (Some ∅, None), w).
Proof.
  split; [|done].
  intros ids Hall.
  destruct (BatchGet_lookup_cases r ids w) as [[_ Hex]|(result & Hl & Hres)].
  { apply Exists_exists in Hex. destruct Hex as (id & Hin & ps & Hv).
    rewrite Forall_forall in Hall.
    destruct (Hall id Hin) as [Hn|[p Hp]]; congruence. }
  exists result. split; [|done].
  rewrite uncached_nil in Hl.
  - unfold BatchGet. by rewrite Hl.
  - eapply Forall_impl; [exact Hall|]. intros id [->|[p ->]]; by eexists.
Qed.

(** C9: [BatchGet] returns an error only when its one [Find] over the ids
    that missed the cache returned that error, and then it returns a [nil]
    map and has written nothing to the cache; without such an error it
    returns the map of exactly the requested ids with a live entity in the
    cache, whatever else was asked for.  It never adds the negative marker.
    (It panics, before any call, exactly when a requested id has a
    collection under its key.)  And the other way round, when no requested
    id has a collection under its key: with every id in the cache it returns
    that map and a [nil] error without a call; otherwise it makes the
    [Find], and returns that map and a [nil] error when the [Find] succeeds,
    and a [nil] map and the error of the [Find], the cache table as it was,
    when it fails. *)
Theorem BatchGet_fails_only_on_store_error r ids w :
  match BatchGet r ids w with
  | (Panic, w1) =>
      w1 = w
      /\ Exists (fun id => exists ps,
                    cache_Value (buildCacheKey r id) w = Some (Entities ps)) ids
  | (Return (result, err), w1) =>
      (forall e, err = Some e ->
          result = None
          /\ uncached r w ids <> []
          /\ (exists d ts,
                 gorm.FindIn (primaryKey r +:+ " IN ?") (uncached r w ids)
                   (database w) = (d, ts, Some e))
          /\ cacheTable w1 = cacheTable w)
      /\ (err = None ->
          exists m, result = Some m
            /\ forall id p,
                 m !! id = Some p
                 <-> id ∈ ids
                     /\ cache_Value (buildCacheKey r id) w = Some (Entity p))
      /\ (exists evs, trace w1 = trace w ++ evs
            /\ Forall (fun ev => adds_NotFound ev = false) evs)
  end
  /\ forall d ts err,
      Forall (fun id => forall ps,
                 cache_Value (buildCacheKey r id) w <> Some (Entities ps)) ids ->
      gorm.FindIn (primaryKey r +:+ " IN ?") (uncached r w ids) (database w)
        = (d, ts, err) ->
      exists m,
        (forall id p,
            m !! id = Some p
            <-> id ∈ ids /\ cache_Value (buildCacheKey r id) w = Some (Entity p))
        /\ (uncached r w ids = [] ->
            BatchGet r ids w = (Return (Some m, None), w))
        /\ (uncached r w ids <> [] ->
            fst (BatchGet r ids w)
            = match err with
              | Some e => Return (None, Some e)
              | None => Return (Some m, None)
              end
            /\ database (snd (BatchGet r ids w)) = d
            /\ (forall e, err = Some e ->
                  cacheTable (snd (BatchGet r ids w)) = cacheTable w
                  /\ trace (snd (BatchGet r ids w))
                     = trace w
                       ++ [DBFindIn (primaryKey r +:+ " IN ?") (uncached r w ids)
                             (seq (length (heap w)) (length ts)) (Some e)])).
Proof.
  split.
  - destruct (BatchGet_lookup_cases r ids w) as [[Hl Hex]|(result & Hl & Hres)].
    { unfold BatchGet. by rewrite Hl. }
    destruct (gorm.FindIn (primaryKey r +:+ " IN ?") (uncached r w ids) (database w))
      as [[d ts] err] eqn:Hq.
    rewrite (BatchGet_unfold r _ _ _ _ _ _ _ Hl Hq).
    destruct (uncached r w ids) as [|id0 ids0] eqn:Hunc.
    { split; [done|]. split; [by eauto|].
      exists []. split; [by rewrite app_nil_r|constructor]. }
    destruct err as [e|].
    + split; [|split; [done|]].
      * intros e' [= <-]. split; [done|]. split; [done|]. split; [by eauto|done].
      * eexists [_]. split; [done|by repeat constructor].
    + split; [done|]. split; [by eauto|].
      eexists (_ :: _). split.
      * rewrite BatchGet_fill_trace. simpl. rewrite <- app_assoc. reflexivity.
      * constructor; [done|]. apply Forall_map. by apply Forall_true.
  - intros d ts err Hshape Hq.
    destruct (BatchGet_lookup_cases r ids w) as [[_ Hex]|(result & Hl & Hres)].
    { apply Exists_exists in Hex. destruct Hex as (id & Hin & ps & Hv).
      rewrite Forall_forall in Hshape. by destruct (Hshape id Hin ps). }
    exists result. split; [exact Hres|].
    rewrite (BatchGet_unfold r _ _ _ _ _ _ _ Hl Hq).
    destruct (uncached r w ids) as [|id0 ids0]; [by split|].
    split; [done|]. intros _.
    destruct err as [e|]; cbn [fst snd].
    + split; [done|]. split; [done|]. intros e' [= <-]. by split.
    + split; [done|]. split; [|done].
      exact (proj1 (proj2 (BatchGet_fill_heap _ _ _))).
Qed.

End Properties.

(** * The repository of users *)

Module UserRepository.
Import examples.

(** The key of a [uint] id is a decimal number: it is never the key of the
    collection and never the empty key. *)
Lemma uint_key_not_all (r : GormCacheRepository) (n : N) :
  buildCacheKey r n <> "all".
Proof.
  unfold buildCacheKey, Sprintf_v, uint_Formatter.
  destruct (N.to_uint n); simpl; discriminate.
Qed.

Lemma uint_key_not_empty (r : GormCacheRepository) (n : N) :
  buildCacheKey r n <> "".
Proof.
  unfold buildCacheKey, Sprintf_v, uint_Formatter.
  destruct n as [|p]; simpl; [discriminate|].
  destruct (Pos.to_uint p); discriminate.
Qed.

(** C1: [Save] does not cache the entity under the key of its id.  Saving
    user 1 (at address 0) succeeds, leaves the key of id 1 without an entry
    and puts the entity under the empty key, so that the [GetByID] of id 1
    that follows is a miss and calls the database; and the empty key is the
    key of no [uint] id. *)
Theorem Save_caches_under_empty_key :
  let w1 := snd (Save repo 0%nat start) in
  fst (Save repo 0%nat start) = None
  /\ ID <$> heap w1 !! 0%nat = Some 1%N
  /\ cacheTable w1 !! buildCacheKey repo 1%N = None
  /\ cache_Value "" w1 = Some (Entity 0%nat)
  /\ trace (snd (GetByID repo 1%N w1))
     = trace w1 ++ [DBFirst "id = ?" 1%N None;
                    CacheAdd "1" (Expiration (config repo)) (Entity 1%nat)]
  /\ forall (id : N) (entity : ptr),
       buildCacheKeyFromEntity repo entity <> buildCacheKey repo id.
Proof.
  repeat split; try reflexivity.
  intros id entity Hk. by apply (uint_key_not_empty repo id).
Qed.

(** C2: [BatchGet] does not put what the database returns into the result.
    With user 1 cached, user 2 only in the database and no user 3, asking
    for 1, 2 and 3 makes one query, for 2 and 3, which returns user 2 (at
    address 2); the result holds user 1 alone, and user 2 is cached under
    the empty key, not under the key of id 2. *)
Theorem BatchGet_drops_store_results :
  let w := user1_cached in
  let w1 := snd (BatchGet repo [1; 2; 3]%N w) in
  cache_Value "1" w = Some (Entity 1%nat)
  /\ cache_Value "2" w = None
  /\ cache_Value "3" w = None
  /\ ID <$> rows (database w) = [1; 2]%N
  /\ (exists m,
        fst (BatchGet repo [1; 2; 3]%N w) = Return (Some m, None)
        /\ map_to_list m = [(1%N, 1%nat)]
        /\ m !! 2%N = None)
  /\ trace w1
     = trace w ++ [DBFindIn "id IN ?" [2; 3]%N [2%nat] None;
                   CacheAdd "" (Expiration (config repo)) (Entity 2%nat)]
  /\ ID <$> heap w1 !! 2%nat = Some 2%N
  /\ cacheTable w1 !! "2" = None.
Proof.
  repeat split; try reflexivity.
  eexists. split; [reflexivity|]. split; reflexivity.
Qed.

(** C3 at work: user 1 is cached after the first [GetByID]; the second one
    returns the same pointer and leaves the world as it is. *)
Lemma GetByID_cache_hit_witness :
  GetByID repo 1%N user1_cached = (Return (Some 1%nat, None), user1_cached)
  /\ GetByID repo 1%N (sleep 5 user1_cached)
     = (Return (Some 1%nat, None), sleep 5 user1_cached)
  /\ snd (GetByID repo 1%N user1_cached) = user1_cached.
Proof.
  destruct (GetByID_cache_hit repo 1%N start) as (_ & _ & _ & Hlater & Hnext).
  destruct (GetByID_cache_hit repo 1%N user1_cached) as (Hsame & _).
  split; [|split].
  - apply Hnext; [reflexivity|]. by vm_compute.
  - apply Hlater; [reflexivity|]. eexists. reflexivity.
  - apply Hsame. eexists. reflexivity.
Defined.

(** C4 at work: user 99999 does not exist; with negative caching two calls
    make one database call, without it two. *)
Lemma GetByID_cache_miss_witness :
  fst (GetByID repo 99999%N start) = Return (None, Some ErrRecordNotFound)
  /\ db_calls (trace (snd (GetByID repo 99999%N
                             (sleep 0 (snd (GetByID repo 99999%N start))))))
     = 1%nat
  /\ db_calls (trace (snd (GetByID repo_no_negative 99999%N
                             (sleep 0 (snd (GetByID repo_no_negative 99999%N
                                              start))))))
     = 2%nat.
Proof.
  assert (gorm.First "id = ?" 99999%N inhabitant users_table
          = (users_table, inhabitant, Some ErrRecordNotFound)) as Hq
    by reflexivity.
  destruct (GetByID_cache_miss_store_error repo 99999%N start users_table
              inhabitant ErrRecordNotFound eq_refl Hq)
    as (Hret & Hon & _).
  destruct (GetByID_cache_miss_store_error repo_no_negative 99999%N start
              users_table inhabitant ErrRecordNotFound eq_refl Hq)
    as (_ & _ & Hoff).
  split; [exact Hret|]. split.
  - destruct (Hon eq_refl eq_refl) as (_ & _ & Hsecond).
    apply (Hsecond 0). right. reflexivity.
  - destruct (Hoff (or_introl eq_refl)) as (_ & _ & Hsecond).
    apply (Hsecond 0).
Defined.

(** C5 at work: with the database unavailable [Save] and [Delete] return
    its error and the cache table stays as it was; with the database
    available [Save] leaves the database [db.Save] answered with, user 1
    written. *)
Lemma Save_Delete_store_first_witness :
  fst (Save repo 0%nat offline) = Some (gorm.ErrOther "connection refused")
  /\ cacheTable (snd (Save repo 0%nat offline)) = cacheTable offline
  /\ fst (Delete repo 1%N offline) = Some (gorm.ErrOther "connection refused")
  /\ cacheTable (snd (Delete repo 1%N offline)) = cacheTable offline
  /\ fst (Save repo 0%nat start) = None
  /\ database (snd (Save repo 0%nat start))
     = {| rows := [user 2 "user2" 25; user 1 "user1" 21]; failure := None |}
  /\ fst (Delete repo 1%N start) = None
  /\ database (snd (Delete repo 1%N start))
     = {| rows := [user 2 "user2" 25]; failure := None |}.
Proof.
  destruct (Save_Delete_store_first repo offline)
    as (_ & Hsave & _ & Hdelete & _).
  destruct (Save_Delete_store_first repo start)
    as (_ & _ & _ & _ & Hsaved & Hdeleted).
  assert (gorm.Save (ID := N) (heap offline !!! 0%nat) (database offline)
          = (unavailable, user 1 "user1" 21,
             Some (gorm.ErrOther "connection refused"))) as Hqs
    by reflexivity.
  assert (gorm.Delete (primaryKey repo +:+ " = ?") 1%N (database offline)
          = (unavailable, Some (gorm.ErrOther "connection refused"))) as Hqd
    by reflexivity.
  assert (gorm.Save (ID := N) (heap start !!! 0%nat) (database start)
          = ({| rows := [user 2 "user2" 25; user 1 "user1" 21];
                failure := None |}, user 1 "user1" 21, None)) as Hqs1
    by reflexivity.
  assert (gorm.Delete (primaryKey repo +:+ " = ?") 1%N (database start)
          = ({| rows := [user 2 "user2" 25]; failure := None |}, None)) as Hqd1
    by reflexivity.
  destruct (Hsave _ _ _ _ Hqs) as (Hs1 & Hs2 & _).
  destruct (Hdelete _ _ _ Hqd) as (Hd1 & Hd2 & _).
  destruct (Hsaved _ _ _ _ Hqs1) as (Hs3 & Hs4 & _).
  destruct (Hdeleted _ _ _ Hqd1) as (Hd3 & Hd4 & _).
  repeat split; assumption.
Defined.

(** C6 at work: the collection is cached, a [Save] and a [Delete] that
    succeed evict it. *)
Lemma Save_Delete_evict_all_witness :
  is_Some (cacheTable all_cached !! "all")
  /\ cacheTable (snd (Save repo 0%nat all_cached)) !! "all" = None
  /\ cacheTable (snd (Delete repo 1%N all_cached)) !! "all" = None
  /\ cacheTable (snd (Delete repo 1%N all_cached)) !! "1" = None
  /\ all_is_fresh (exec repo (CallSave 0%nat) start).
Proof.
  destruct (Save_Delete_evict_all (db := MemDB User) (ID := N) repo)
    as (Hsave & Hdelete & Hstep & Hreach).
  split; [eexists; reflexivity|].
  split; [|split; [|split]].
  - apply (Hsave 0%nat all_cached). reflexivity.
  - apply (Hdelete 1%N all_cached). reflexivity.
  - apply (Hdelete 1%N all_cached). reflexivity.
  - apply Hstep. apply (Hreach _ _ _ []).
Defined.

(** C7: in a repository of users by name, [ClearCache] of the user named
    ["all"] removes the cached collection. *)
Lemma ClearCache_of_id_all_evicts_collection :
  cache_Value "all" all_cached_by_name = Some (Entities [0%nat; 1%nat])
  /\ fst (ClearCache repo_by_name "all" all_cached_by_name) = None
  /\ cacheTable (snd (ClearCache repo_by_name "all" all_cached_by_name)) !! "all"
     = None
  /\ cacheTable (snd (ClearCache repo_by_name "all" all_cached_by_name)) !! "all"
     <> cacheTable all_cached_by_name !! "all".
Proof. repeat split; try reflexivity. by vm_compute. Qed.

(** C7, amended, at work: clearing user 1 keeps the cached collection;
    clearing user 3, who is not cached, changes nothing. *)
Lemma ClearCache_deletes_one_key_witness :
  cacheTable (snd (ClearCache repo 1%N all_cached)) !! "all"
  = cacheTable all_cached !! "all"
  /\ cacheTable (snd (ClearCache repo 3%N all_cached)) = cacheTable all_cached
  /\ cacheTable (snd (ClearCache repo 1%N all_cached)) !! "1" = None.
Proof.
  destruct (ClearCache_deletes_one_key repo all_cached) as (Hclear & _).
  destruct (Hclear 1%N) as (_ & Htable & _ & Hall & _).
  destruct (Hclear 3%N) as (_ & _ & _ & _ & Habsent & _).
  split; [|split].
  - apply Hall. apply uint_key_not_all.
  - apply Habsent. reflexivity.
  - rewrite Htable. reflexivity.
Defined.

(** C8: in a repository of users by name, a [GetByID] of the name ["all"],
    which no user has, leaves the negative marker under ["all"]; the entry is
    live and [GetAll] panics on it instead of returning a collection. *)
Lemma GetAll_panics_on_marker_under_all :
  let w := snd (GetByID repo_by_name "all" (init [] users_table 0)) in
  fst (GetByID repo_by_name "all" (init [] users_table 0))
  = Return (None, Some ErrRecordNotFound)
  /\ cache_Value "all" w = Some NotFound
  /\ GetAll repo_by_name w = (Panic, w).
Proof. repeat split; reflexivity. Qed.

(** C8, amended, at work: the first [GetAll] fetches the two users and caches them,
    the second returns them from the cache; with the database unavailable
    the error comes back and nothing is cached. *)
Lemma GetAll_cached_or_fetched_witness :
  fst (GetAll repo user1_cached) = Return (Some [2%nat; 3%nat], None)
  /\ GetAll repo all_cached = (Return (Some [2%nat; 3%nat], None), all_cached)
  /\ fst (GetAll repo offline)
     = Return (None, Some (gorm.ErrOther "connection refused"))
  /\ cacheTable (snd (GetAll repo offline)) = cacheTable offline.
Proof.
  destruct (GetAll_cached_or_fetched repo user1_cached) as (_ & _ & Hmiss & _).
  destruct (GetAll_cached_or_fetched repo all_cached) as (Hhit & _).
  destruct (GetAll_cached_or_fetched repo offline) as (_ & _ & _ & Herr).
  assert (gorm.Find (ID := N) (database user1_cached)
          = (users_table, rows users_table, None)) as Hq by reflexivity.
  assert (gorm.Find (ID := N) (database offline)
          = (unavailable, [], Some (gorm.ErrOther "connection refused")))
    as Hqe by reflexivity.
  destruct (Hmiss _ _ eq_refl Hq) as (Hm & _).
  destruct (Herr _ _ _ eq_refl Hqe) as (He1 & He2 & _).
  split; [exact Hm|]. split; [apply Hhit; reflexivity|]. split; assumption.
Defined.

(** C9 at work: with the database unavailable [BatchGet] returns its error
    and a [nil] map; the cache table stays as it was. *)
Lemma BatchGet_fails_only_on_store_error_witness :
  BatchGet repo [2; 3]%N offline
  = (Return (None, Some (gorm.ErrOther "connection refused")),
     snd (BatchGet repo [2; 3]%N offline))
  /\ uncached repo offline [2; 3]%N <> []
  /\ cacheTable (snd (BatchGet repo [2; 3]%N offline)) = cacheTable offline
  /\ fst (BatchGet repo [2; 3]%N offline)
     = Return (None, Some (gorm.ErrOther "connection refused"))
  /\ database (snd (BatchGet repo [2; 3]%N offline)) = unavailable.
Proof.
  assert (BatchGet repo [2; 3]%N offline
          = (Return (None, Some (gorm.ErrOther "connection refused")),
             snd (BatchGet repo [2; 3]%N offline))) as Hrun by reflexivity.
  destruct (BatchGet_fails_only_on_store_error repo [2; 3]%N offline)
    as (Hspec & Hfail).
  rewrite Hrun in Hspec. destruct Hspec as (Herr & _).
  destruct (Herr _ eq_refl) as (_ & Hunc & _ & Htable).
  assert (Forall (fun id => forall ps,
                     cache_Value (buildCacheKey repo id) offline
                     <> Some (Entities ps)) [2; 3]%N) as Hshape
    by (repeat constructor; intros ps; discriminate).
  assert (gorm.FindIn (primaryKey repo +:+ " IN ?")
            (uncached repo offline [2; 3]%N) (database offline)
          = (unavailable, [], Some (gorm.ErrOther "connection refused")))
    as Hq by reflexivity.
  destruct (Hfail _ _ _ Hshape Hq) as (m & _ & _ & Hquery).
  destruct (Hquery Hunc) as (Hret & Hdb & _).
  split; [exact Hrun|]. split; [exact Hunc|]. split; [exact Htable|].
  split; assumption.
Defined.

(** C10 at work: user 1 is cached, so asking for user 1 alone is answered
    from the cache. *)
Lemma BatchGet_all_cached_witness :
  exists result,
    BatchGet repo [1%N] user1_cached = (Return (Some result, None), user1_cached)
    /\ result !! 1%N = Some 1%nat.
Proof.
  destruct (BatchGet_all_cached repo user1_cached) as (Hall & _).
  destruct (Hall [1%N]) as (result & Hrun & Hres).
  { constructor; [|constructor]. right. eexists. reflexivity. }
  exists result. split; [exact Hrun|].
  apply Hres. split; [apply list_elem_of_here|reflexivity].
Defined.

End UserRepository.

(** * How the methods compose *)

Section Compositions.
Context {db T ID : Type} `{Countable ID} `{!Inhabited T}.
Context `{!gorm.DB db T ID} `{!Formatter ID}.

Implicit Types (r : GormCacheRepository) (w : World db T ID) (id : ID).
Implicit Types (key : string) (entity p : ptr).

(** ** Reading through the cache *)

(** X1: on a cache miss that the database answers with a row, [GetByID] makes
    one [First], returns a new pointer whose cell holds the row, and adds it
    under the key of the id with the configured life span; a second
    [GetByID] made while the entry is live returns the same pointer, the cell
    still holds the row, and the database is not called again. *)
Theorem GetByID_read_through r id w d t :
  cache_Value (buildCacheKey r id) w = None ->
  gorm.First (primaryKey r +:+ " = ?") id inhabitant (database w)
    = (d, t, None) ->
  let p := length (heap w) in
  let key := buildCacheKey r id in
  let span := Expiration (config r) in
  let w1 := snd (GetByID r id w) in
  fst (GetByID r id w) = Return (Some p, None)
  /\ heap w1 !! p = Some t
  /\ database w1 = d
  /\ cacheTable w1 = cache2go.Add key span (Entity p) (now w) (cacheTable w)
  /\ trace w1
     = trace w ++ [DBFirst (primaryKey r +:+ " = ?") id None;
                   CacheAdd key span (Entity p)]
  /\ forall dt, span = 0 \/ Z.max 0 dt < span ->
       let w2 := snd (GetByID r id (sleep dt w1)) in
       fst (GetByID r id (sleep dt w1)) = Return (Some p, None)
       /\ heap w2 !! p = Some t
       /\ db_calls (trace w2) = S (db_calls (trace w)).
Proof.
  intros Hv Hq p key span w1. subst w1.
  rewrite (GetByID_miss _ _ _ _ _ _ Hv Hq). cbn [fst snd].
  split; [done|]. split.
  { simpl. by apply list_lookup_middle. }
  split; [done|]. split; [done|]. split.
  { simpl. by rewrite <- app_assoc. }
  intros dt Hdt.
  rewrite (GetByID_hit_Entity r id _ p) by (by apply Value_Add_sleep).
  cbn [fst snd]. split; [done|]. split.
  { simpl. by apply list_lookup_middle. }
  simpl. rewrite <- app_assoc, db_calls_app. unfold db_calls at 2. simpl. lia.
Qed.

(** ** What a method leaves alone *)

(** X2: no method writes to an entity it was not given: a cell of the heap
    keeps its content through [GetByID], [GetAll], [BatchGet], [Delete],
    [ClearCache] and [ClearAllCache], and through [Save] of another
    entity. *)
Theorem entities_are_kept r w p t :
  heap w !! p = Some t ->
  (forall id, heap (snd (GetByID r id w)) !! p = Some t)
  /\ heap (snd (GetAll r w)) !! p = Some t
  /\ (forall ids, heap (snd (BatchGet r ids w)) !! p = Some t)
  /\ (forall entity, entity <> p -> heap (snd (Save r entity w)) !! p = Some t)
  /\ (forall id, heap (snd (Delete r id w)) !! p = Some t)
  /\ (forall id, heap (snd (ClearCache r id w)) !! p = Some t)
  /\ heap (snd (ClearAllCache r w)) !! p = Some t.
Proof.
  intros Hp.
  assert (forall ts, (heap w ++ ts) !! p = Some t) as Happ.
  { intros ts. by apply lookup_app_l_Some. }
  split; [|split; [|split; [|split; [|split; [|split]]]]].
  - intros id. destruct (cache_Value (buildCacheKey r id) w) as [dat|] eqn:Hv.
    { rewrite GetByID_hit_unchanged; [done|by eexists]. }
    destruct (gorm.First (primaryKey r +:+ " = ?") id inhabitant (database w))
      as [[d t1] err] eqn:Hq.
    rewrite (GetByID_miss _ _ _ _ _ _ Hv Hq).
    destruct err as [e|]; cbn [snd]; [|by apply Happ].
    destruct (UseNotFoundCache (config r) && gorm.errors_Is e ErrRecordNotFound);
      by apply Happ.
  - destruct (cache_Value "all" w) as [dat|] eqn:Hv.
    { rewrite GetAll_hit_unchanged; [done|by eexists]. }
    destruct (gorm.Find (database w)) as [[d ts] err] eqn:Hq.
    rewrite (GetAll_miss r _ _ _ _ Hv Hq).
    destruct err; by apply Happ.
  - intros ids.
    destruct (BatchGet_lookup r w ids ∅ []) as [[result uncachedIDs]|] eqn:Hl.
    2:{ unfold BatchGet. by rewrite Hl. }
    destruct (gorm.FindIn (primaryKey r +:+ " IN ?") uncachedIDs (database w))
      as [[d ts] err] eqn:Hq.
    rewrite (BatchGet_unfold r _ _ _ _ _ _ _ Hl Hq).
    destruct uncachedIDs as [|id0 ids0]; [done|].
    destruct err as [e|]; cbn [snd]; [by apply Happ|].
    destruct (BatchGet_fill_heap r (seq (length (heap w)) (length ts))
                (emit (DBFindIn (primaryKey r +:+ " IN ?") (id0 :: ids0)
                         (seq (length (heap w)) (length ts)) None)
                   (set_store (heap w ++ ts) d w))) as (-> & _).
    by apply Happ.
  - intros entity Hne.
    destruct (gorm.Save (heap w !!! entity) (database w)) as [[d t1] err] eqn:Hq.
    rewrite (Save_unfold r _ _ _ _ _ Hq).
    destruct err; cbn [snd]; simpl; by rewrite list_lookup_insert_ne.
  - intros id.
    destruct (gorm.Delete (primaryKey r +:+ " = ?") id (database w))
      as [d err] eqn:Hq.
    rewrite (Delete_unfold r _ _ _ _ Hq). by destruct err.
  - done.
  - done.
Qed.

Lemma GetByID_frame r id w key :
  key <> buildCacheKey r id ->
  cacheTable (snd (GetByID r id w)) !! key = cacheTable w !! key.
Proof.
  intros Hk. destruct (cache_Value (buildCacheKey r id) w) as [dat|] eqn:Hv.
  { rewrite GetByID_hit_unchanged; [done|by eexists]. }
  destruct (gorm.First (primaryKey r +:+ " = ?") id inhabitant (database w))
    as [[d t] err] eqn:Hq.
  rewrite (GetByID_miss _ _ _ _ _ _ Hv Hq).
  destruct err as [e|]; cbn [snd].
  - destruct (UseNotFoundCache (config r) && gorm.errors_Is e ErrRecordNotFound);
      [|done].
    simpl. unfold cache2go.Add. by rewrite lookup_insert_ne.
  - simpl. unfold cache2go.Add. by rewrite lookup_insert_ne.
Qed.

Lemma GetAll_frame r w key :
  key <> "all" ->
  cacheTable (snd (GetAll r w)) !! key = cacheTable w !! key.
Proof.
  intros Hk. destruct (cache_Value "all" w) as [dat|] eqn:Hv.
  { rewrite GetAll_hit_unchanged; [done|by eexists]. }
  destruct (gorm.Find (database w)) as [[d ts] err] eqn:Hq.
  rewrite (GetAll_miss r _ _ _ _ Hv Hq).
  destruct err; [done|].
  simpl. unfold cache2go.Add. by rewrite lookup_insert_ne.
Qed.

Lemma Save_frame r entity w key :
  key <> "" -> key <> "all" ->
  cacheTable (snd (Save r entity w)) !! key = cacheTable w !! key.
Proof.
  intros Hk1 Hk2.
  destruct (gorm.Save (heap w !!! entity) (database w)) as [[d t] err] eqn:Hq.
  rewrite (Save_unfold r _ _ _ _ _ Hq).
  destruct err; [done|].
  simpl. unfold cache2go.Delete, cache2go.Add.
  rewrite lookup_delete_ne by done. by rewrite lookup_insert_ne.
Qed.

Lemma Delete_frame r id w key :
  key <> buildCacheKey r id -> key <> "all" ->
  cacheTable (snd (Delete r id w)) !! key = cacheTable w !! key.
Proof.
  intros Hk1 Hk2.
  destruct (gorm.Delete (primaryKey r +:+ " = ?") id (database w))
    as [d err] eqn:Hq.
  rewrite (Delete_unfold r _ _ _ _ Hq).
  destruct err; [done|].
  simpl. unfold cache2go.Delete.
  rewrite lookup_delete_ne by done. by rewrite lookup_delete_ne.
Qed.

(** X3: the keys a method writes.  [GetByID] changes no entry but the one of
    the key of its id, [GetAll] none but the one of ["all"], [Save] none but
    those of the empty key and of ["all"], [Delete] none but those of the key
    of its id and of ["all"]. *)
Theorem cache_entries_are_kept r w key :
  (forall id, key <> buildCacheKey r id ->
      cacheTable (snd (GetByID r id w)) !! key = cacheTable w !! key)
  /\ (key <> "all" ->
      cacheTable (snd (GetAll r w)) !! key = cacheTable w !! key)
  /\ (forall entity, key <> "" -> key <> "all" ->
        cacheTable (snd (Save r entity w)) !! key = cacheTable w !! key)
  /\ (forall id, key <> buildCacheKey r id -> key <> "all" ->
        cacheTable (snd (Delete r id w)) !! key = cacheTable w !! key).
Proof.
  split; [|split; [|split]].
  - intros id. apply GetByID_frame.
  - apply GetAll_frame.
  - intros entity. apply Save_frame.
  - intros id. apply Delete_frame.
Qed.

(** ** Panics *)

Lemma GetByID_panics_iff r id w :
  fst (GetByID r id w) = Panic
  <-> exists ps, cache_Value (buildCacheKey r id) w = Some (Entities ps).
Proof.
  destruct (cache_Value (buildCacheKey r id) w) as [dat|] eqn:Hv.
  - unfold GetByID. rewrite Hv. destruct dat; simpl; split; try done.
    + by intros [ps [=]].
    + by intros [ps [=]].
    + by eauto.
  - destruct (gorm.First (primaryKey r +:+ " = ?") id inhabitant (database w))
      as [[d t] err] eqn:Hq.
    rewrite (GetByID_miss _ _ _ _ _ _ Hv Hq).
    split; [by destruct err|]. by intros [ps [=]].
Qed.

Lemma GetAll_panics_iff r w :
  fst (GetAll r w) = Panic
  <-> cache_Value "all" w = Some NotFound
      \/ exists p, cache_Value "all" w = Some (Entity p).
Proof.
  destruct (cache_Value "all" w) as [dat|] eqn:Hv.
  - unfold GetAll. rewrite Hv. destruct dat; simpl; split; try done.
    + by left.
    + by eauto.
    + by intros [[=]|[p [=]]].
  - destruct (gorm.Find (database w)) as [[d ts] err] eqn:Hq.
    rewrite (GetAll_miss r _ _ _ _ Hv Hq).
    split; [by destruct err|]. by intros [[=]|[p [=]]].
Qed.

Lemma BatchGet_panics_iff r ids w :
  fst (BatchGet r ids w) = Panic
  <-> Exists (fun id => exists ps,
                 cache_Value (buildCacheKey r id) w = Some (Entities ps)) ids.
Proof.
  pose proof (BatchGet_lookup_spec r w ids ∅ []) as Hspec.
  destruct (BatchGet_lookup r w ids ∅ []) as [[result unc]|] eqn:Hl.
  - destruct Hspec as (_ & _ & Hno).
    destruct (gorm.FindIn (primaryKey r +:+ " IN ?") unc (database w))
      as [[d ts] err] eqn:Hq.
    rewrite (BatchGet_unfold r _ _ _ _ _ _ _ Hl Hq).
    split.
    + destruct unc; [done|]. by destruct err.
    + intros Hex. apply Exists_exists in Hex.
      destruct Hex as (id & Hin & ps & Hv).
      rewrite Forall_forall in Hno. by destruct (Hno id Hin ps).
  - unfold BatchGet. rewrite Hl. done.
Qed.

Lemma panics_unchanged r c w : panics r c w = true -> exec r c w = w.
Proof.
  intros Hp. destruct c; simpl in Hp; try done; simpl.
  - destruct (fst (GetByID r id w)) eqn:Hf; [done|].
    apply GetByID_panics_iff in Hf. destruct Hf as [ps Hv].
    apply GetByID_hit_unchanged. by eexists.
  - destruct (fst (GetAll r w)) eqn:Hf; [done|].
    apply GetAll_hit_unchanged. apply GetAll_panics_iff in Hf.
    destruct Hf as [Hv|[p Hv]]; by eexists.
  - unfold BatchGet in *.
    destruct (BatchGet_lookup r w ids ∅ []) as [[result unc]|]; [|done].
    destruct (0 <? length unc)%nat; [|done].
    destruct (db_FindIn (primaryKey r +:+ " IN ?") unc w) as [[es err] w1].
    by destruct err.
Qed.

(** X15: the type assertions.  [GetByID] panics exactly when the key of its
    id holds a live collection, [GetAll] exactly when ["all"] holds a live
    entry that is no collection, [BatchGet] exactly when the key of one of
    its ids holds a live collection; a call that panics has called neither
    the database nor written to the cache. *)
Theorem panics_on_wrong_shape r w :
  (forall id,
      fst (GetByID r id w) = Panic
      <-> exists ps, cache_Value (buildCacheKey r id) w = Some (Entities ps))
  /\ (fst (GetAll r w) = Panic
      <-> cache_Value "all" w = Some NotFound
          \/ exists p, cache_Value "all" w = Some (Entity p))
  /\ (forall ids,
        fst (BatchGet r ids w) = Panic
        <-> Exists (fun id => exists ps,
                       cache_Value (buildCacheKey r id) w = Some (Entities ps))
              ids)
  /\ (forall c, panics r c w = true -> exec r c w = w).
Proof.
  split; [intros id; apply GetByID_panics_iff|].
  split; [apply GetAll_panics_iff|].
  split; [intros ids; apply BatchGet_panics_iff|].
  intros c. apply panics_unchanged.
Qed.

Lemma well_typed_step w w1 :
  well_typed w ->
  (forall key item,
      cacheTable w1 !! key = Some item ->
      cacheTable w !! key = Some item
      \/ match cache2go.data item with
         | Entities _ => key = "all"
         | _ => key <> "all"
         end) ->
  well_typed w1.
Proof.
  intros Hw Hstep key item Hi. destruct (Hstep key item Hi) as [Hold|Hnew].
  - by apply Hw.
  - exact Hnew.
Qed.

Lemma lookup_Add_inv (table : gmap string CacheItem) key span dat t key1 item :
  cache2go.Add key span dat t table !! key1 = Some item ->
  table !! key1 = Some item \/ (key1 = key /\ cache2go.data item = dat).
Proof.
  unfold cache2go.Add. intros Hi. destruct (decide (key = key1)) as [->|Hne].
  - rewrite lookup_insert_eq in Hi. simplify_eq. by right.
  - rewrite lookup_insert_ne in Hi by done. by left.
Qed.

Lemma lookup_Delete_inv (table : gmap string CacheItem) key key1 item :
  cache2go.Delete key table !! key1 = Some item -> table !! key1 = Some item.
Proof.
  unfold cache2go.Delete. intros Hi. destruct (decide (key = key1)) as [->|Hne].
  - by rewrite lookup_delete_eq in Hi.
  - by rewrite lookup_delete_ne in Hi.
Qed.

Lemma BatchGet_fill_inv r entities w key item :
  cacheTable (BatchGet_fill r entities w) !! key = Some item ->
  cacheTable w !! key = Some item
  \/ (key = "" /\ exists entity, cache2go.data item = Entity entity).
Proof.
  revert w. induction entities as [|entity entities IH]; intros w Hi; [by left|].
  cbn [BatchGet_fill] in Hi. destruct (IH _ Hi) as [Hold|Hnew]; [|by right].
  simpl in Hold. apply lookup_Add_inv in Hold.
  destruct Hold as [Hold|[-> Hd]]; [by left|]. right. by eauto.
Qed.

Lemma exec_keeps_well_typed r c w :
  (forall id, buildCacheKey r id <> "all") ->
  well_typed w -> well_typed (exec r c w).
Proof.
  intros Hres Hw. destruct c; simpl.
  - destruct (cache_Value (buildCacheKey r id) w) as [dat|] eqn:Hv.
    { rewrite GetByID_hit_unchanged; [done|by eexists]. }
    destruct (gorm.First (primaryKey r +:+ " = ?") id inhabitant (database w))
      as [[d t] err] eqn:Hq.
    rewrite (GetByID_miss _ _ _ _ _ _ Hv Hq).
    destruct err as [e|]; cbn [snd].
    + destruct (UseNotFoundCache (config r) && gorm.errors_Is e ErrRecordNotFound);
        [|exact Hw].
      apply (well_typed_step w); [done|]. intros key item Hi. simpl in Hi.
      apply lookup_Add_inv in Hi. destruct Hi as [?|[-> ->]]; [by left|].
      right. apply Hres.
    + apply (well_typed_step w); [done|]. intros key item Hi. simpl in Hi.
      apply lookup_Add_inv in Hi. destruct Hi as [?|[-> ->]]; [by left|].
      right. apply Hres.
  - destruct (cache_Value "all" w) as [dat|] eqn:Hv.
    { rewrite GetAll_hit_unchanged; [done|by eexists]. }
    destruct (gorm.Find (database w)) as [[d ts] err] eqn:Hq.
    rewrite (GetAll_miss r _ _ _ _ Hv Hq).
    destruct err as [e|]; cbn [snd]; [exact Hw|].
    apply (well_typed_step w); [done|]. intros key item Hi. simpl in Hi.
    apply lookup_Add_inv in Hi. destruct Hi as [?|[-> ->]]; [by left|by right].
  - destruct (gorm.Save (heap w !!! entity) (database w)) as [[d t] err] eqn:Hq.
    rewrite (Save_unfold r _ _ _ _ _ Hq).
    destruct err as [e|]; cbn [snd]; [exact Hw|].
    apply (well_typed_step w); [done|]. intros key item Hi. simpl in Hi.
    apply lookup_Delete_inv, lookup_Add_inv in Hi.
    destruct Hi as [?|[-> ->]]; [by left|by right].
  - destruct (gorm.Delete (primaryKey r +:+ " = ?") id (database w))
      as [d err] eqn:Hq.
    rewrite (Delete_unfold r _ _ _ _ Hq).
    destruct err as [e|]; cbn [snd]; [exact Hw|].
    apply (well_typed_step w); [done|]. intros key item Hi. simpl in Hi.
    left. by apply lookup_Delete_inv, lookup_Delete_inv in Hi.
  - apply (well_typed_step w); [done|]. intros key item Hi. simpl in Hi.
    left. by apply lookup_Delete_inv in Hi.
  - intros key item Hi. simpl in Hi. unfold cache2go.Flush in Hi.
    by rewrite lookup_empty in Hi.
  - destruct (BatchGet_lookup r w ids ∅ []) as [[result uncachedIDs]|] eqn:Hl.
    2:{ unfold BatchGet. by rewrite Hl. }
    destruct (gorm.FindIn (primaryKey r +:+ " IN ?") uncachedIDs (database w))
      as [[d ts] err] eqn:Hq.
    rewrite (BatchGet_unfold r _ _ _ _ _ _ _ Hl Hq).
    destruct uncachedIDs as [|id0 ids0]; [done|].
    destruct err as [e|]; cbn [snd]; [exact Hw|].
    apply (well_typed_step w); [done|]. intros key item Hi.
    apply BatchGet_fill_inv in Hi.
    destruct Hi as [?|[-> [entity ->]]]; [by left|by right].
  - exact Hw.
  - exact Hw.
Qed.

Lemma well_typed_no_panic r c w :
  (forall id, buildCacheKey r id <> "all") ->
  well_typed w -> panics r c w = false.
Proof.
  intros Hres Hw. destruct (panics r c w) eqn:Hp; [|done]. exfalso.
  destruct c; simpl in Hp; try done.
  - destruct (fst (GetByID r id w)) eqn:Hf; [done|].
    apply GetByID_panics_iff in Hf. destruct Hf as [ps Hv].
    apply Value_table in Hv. destruct Hv as (item & Hi & Hd).
    specialize (Hw _ _ Hi). rewrite Hd in Hw. by apply (Hres id).
  - destruct (fst (GetAll r w)) eqn:Hf; [done|].
    apply GetAll_panics_iff in Hf. destruct Hf as [Hv|[p Hv]];
      apply Value_table in Hv; destruct Hv as (item & Hi & Hd);
      specialize (Hw _ _ Hi); rewrite Hd in Hw; done.
  - destruct (fst (BatchGet r ids w)) eqn:Hf; [done|].
    apply BatchGet_panics_iff, Exists_exists in Hf.
    destruct Hf as (id & _ & ps & Hv).
    apply Value_table in Hv. destruct Hv as (item & Hi & Hd).
    specialize (Hw _ _ Hi). rewrite Hd in Hw. by apply (Hres id).
Qed.

(** X4: when no id has ["all"] as its key, the cache table keeps its shapes
    (a collection under ["all"], entities and markers elsewhere) through
    every call, and no call on a repository that started with an empty cache
    ever panics. *)
Theorem no_call_panics r :
  (forall id, buildCacheKey r id <> "all") ->
  (forall c w, well_typed w -> well_typed (exec r c w))
  /\ forall h d t cs c,
       well_typed (exec_all r cs (init h d t))
       /\ panics r c (exec_all r cs (init h d t)) = false.
Proof.
  intros Hres. split; [intros c w; by apply exec_keeps_well_typed|].
  intros h d t cs c.
  assert (well_typed (exec_all r cs (init h d t))) as Hw.
  { assert (well_typed (init h d t : World db T ID)) as Hinit.
    { intros key item Hi. simpl in Hi. by rewrite lookup_empty in Hi. }
    revert Hinit. generalize (init h d t : World db T ID).
    induction cs as [|c1 cs IH]; intros w Hw; [done|].
    simpl. apply IH. by apply exec_keeps_well_typed. }
  split; [exact Hw|]. by apply well_typed_no_panic.
Qed.

(** ** After a write *)

(** [Value] reads the clock and one entry of the table. *)
Lemma cache_Value_ext key w w1 :
  now w1 = now w ->
  cacheTable w1 !! key = cacheTable w !! key ->
  cache_Value key w1 = cache_Value key w.
Proof. intros Hn Ht. unfold cache_Value, cache2go.Value. by rewrite Hn, Ht. Qed.

Lemma cache_Value_no_entry key w :
  cacheTable w !! key = None -> cache_Value key w = None.
Proof. intros Ht. unfold cache_Value, cache2go.Value. by rewrite Ht. Qed.

Lemma Save_now r entity w : now (snd (Save r entity w)) = now w.
Proof.
  destruct (gorm.Save (heap w !!! entity) (database w)) as [[d t] err] eqn:Hq.
  rewrite (Save_unfold r _ _ _ _ _ Hq). by destruct err.
Qed.

(** X5: [Save] does not touch the entry of an id: for an id whose key is
    neither empty nor ["all"], the cache answers after a [Save] as it did
    before, whatever entity was saved; a [GetByID] that was a hit before the
    [Save] returns the same result after it, an entity or the error of the
    negative marker, and does not call the database. *)
Theorem Save_keeps_entries_of_ids r entity id w :
  buildCacheKey r id <> "" ->
  buildCacheKey r id <> "all" ->
  let w1 := snd (Save r entity w) in
  cache_Value (buildCacheKey r id) w1 = cache_Value (buildCacheKey r id) w
  /\ (is_Some (cache_Value (buildCacheKey r id) w) ->
      fst (GetByID r id w1) = fst (GetByID r id w)
      /\ snd (GetByID r id w1) = w1).
Proof.
  intros Hk1 Hk2 w1.
  assert (cache_Value (buildCacheKey r id) w1 = cache_Value (buildCacheKey r id) w)
    as Hsame.
  { apply cache_Value_ext; [apply Save_now|].
    by apply Save_frame. }
  split; [exact Hsame|]. intros [dat Hv]. split.
  - unfold GetByID. rewrite Hsame, Hv. by destruct dat.
  - apply GetByID_hit_unchanged. rewrite Hsame, Hv. by eexists.
Qed.

(** X6: after [ClearCache] of an id, and after a [Delete] of it that
    succeeded, the next [GetByID] of the id asks the database, once, however
    much later it comes. *)
Theorem GetByID_after_invalidation r id w :
  (forall dt,
      db_calls (trace (snd (GetByID r id (sleep dt (snd (ClearCache r id w))))))
      = S (db_calls (trace w)))
  /\ (forall w1 dt,
        Delete r id w = (None, w1) ->
        db_calls (trace (snd (GetByID r id (sleep dt w1))))
        = S (S (db_calls (trace w)))).
Proof.
  split.
  - intros dt.
    edestruct (GetByID_miss_trace r id) as (err & rest & -> & Hrest).
    { apply Value_sleep_miss, cache_Value_no_entry. simpl.
      apply lookup_delete_eq. }
    simpl. rewrite !db_calls_app.
    change (DBFirst (primaryKey r +:+ " = ?") id err :: rest)
      with ([DBFirst (primaryKey r +:+ " = ?") id err] ++ rest).
    rewrite db_calls_app, Hrest. unfold db_calls at 2 3. simpl. lia.
  - intros w1 dt Hd.
    edestruct (GetByID_miss_trace r id) as (err & rest & -> & Hrest).
    { apply Value_sleep_miss, cache_Value_no_entry.
      rewrite (Delete_success_table _ _ _ _ Hd).
      destruct (decide (buildCacheKey r id = "all")) as [->|Hk].
      - apply lookup_delete_eq.
      - rewrite lookup_delete_ne by done. apply lookup_delete_eq. }
    destruct (gorm.Delete (primaryKey r +:+ " = ?") id (database w))
      as [d err1] eqn:Hq.
    rewrite (Delete_unfold r _ _ _ _ Hq) in Hd.
    destruct err1; [done|]. injection Hd as <-.
    simpl. rewrite !db_calls_app.
    change (DBFirst (primaryKey r +:+ " = ?") id err :: rest)
      with ([DBFirst (primaryKey r +:+ " = ?") id err] ++ rest).
    rewrite db_calls_app, Hrest. unfold db_calls at 2 3 4 5. simpl. lia.
Qed.

(** ** Life span *)

Lemma Value_Add_expired key span dat dt w :
  0 < span -> span <= dt ->
  cache_Value key (sleep dt (cache_Add key span dat w)) = None.
Proof.
  intros Hs Hdt.
  unfold cache_Value, cache2go.Value, cache_Add, cache2go.Add; simpl.
  rewrite lookup_insert_eq. unfold cache2go.expired; simpl.
  destruct (span =? 0) eqn:E0; [apply Z.eqb_eq in E0; lia|]. simpl.
  destruct (now w + span <=? now w + Z.max 0 dt) eqn:E; [done|].
  apply Z.leb_gt in E. lia.
Qed.

(** X12: with a positive [Expiration], what a [GetByID] cached on a miss, an
    entity or the negative marker, is gone once the life span has passed: a
    [GetByID] made that much later, or later still, asks the database
    again. *)
Theorem GetByID_entry_expires r id w dt :
  cache_Value (buildCacheKey r id) w = None ->
  0 < Expiration (config r) ->
  Expiration (config r) <= dt ->
  let w1 := snd (GetByID r id w) in
  cache_Value (buildCacheKey r id) (sleep dt w1) = None
  /\ db_calls (trace (snd (GetByID r id (sleep dt w1))))
     = S (S (db_calls (trace w))).
Proof.
  intros Hv Hpos Hdt w1.
  assert (cache_Value (buildCacheKey r id) (sleep dt w1) = None) as Hgone.
  { subst w1.
    destruct (gorm.First (primaryKey r +:+ " = ?") id inhabitant (database w))
      as [[d t] err] eqn:Hq.
    rewrite (GetByID_miss _ _ _ _ _ _ Hv Hq).
    destruct err as [e|]; cbn [snd].
    - destruct (UseNotFoundCache (config r) && gorm.errors_Is e ErrRecordNotFound).
      + by apply Value_Add_expired.
      + apply Value_sleep_miss. exact Hv.
    - by apply Value_Add_expired. }
  split; [exact Hgone|].
  destruct (GetByID_miss_trace r id _ Hgone) as (err2 & rest2 & -> & Hrest2).
  destruct (GetByID_miss_trace r id _ Hv) as (err1 & rest1 & Ht1 & Hrest1).
  simpl. fold w1 in Ht1. rewrite Ht1. rewrite !db_calls_app.
  change (DBFirst (primaryKey r +:+ " = ?") id err1 :: rest1)
    with ([DBFirst (primaryKey r +:+ " = ?") id err1] ++ rest1).
  change (DBFirst (primaryKey r +:+ " = ?") id err2 :: rest2)
    with ([DBFirst (primaryKey r +:+ " = ?") id err2] ++ rest2).
  rewrite !db_calls_app, Hrest1, Hrest2. unfold db_calls at 2 3. simpl. lia.
Qed.

(** ** Shared entities *)

(** X13: the cache hands out the pointer it holds.  When the caller writes
    through a pointer that [GetByID] serves from the cache, the next
    [GetByID] returns the same pointer and its cell holds what was written,
    with no [Save] and no call on the database in between. *)
Theorem cached_entity_is_shared r id w p t :
  cache_Value (buildCacheKey r id) w = Some (Entity p) ->
  (p < length (heap w))%nat ->
  let w1 := exec r (Assign p t) w in
  GetByID r id w1 = (Return (Some p, None), w1)
  /\ heap w1 !! p = Some t
  /\ database w1 = database w
  /\ trace w1 = trace w.
Proof.
  intros Hv Hp w1. split; [|split; [|done]].
  - apply GetByID_hit_Entity. exact Hv.
  - simpl. by apply list_lookup_insert_eq.
Qed.

(** ** The collection *)

(** X11: after a [GetAll] that succeeded, a [GetAll] made while the entry
    under ["all"] is live (at once, when [Expiration] is not negative)
    returns the same pointers and leaves the world as it is. *)
Theorem GetAll_twice r w ps w1 :
  GetAll r w = (Return (Some ps, None), w1) ->
  (forall dt,
      is_Some (cache_Value "all" (sleep dt w1)) ->
      GetAll r (sleep dt w1) = (Return (Some ps, None), sleep dt w1))
  /\ (0 <= Expiration (config r) ->
      GetAll r w1 = (Return (Some ps, None), w1)).
Proof.
  intros Hg.
  assert (exists item, cacheTable w1 !! "all" = Some item
                       /\ cache2go.data item = Entities ps) as (item & Hi & Hd).
  { destruct (cache_Value "all" w) as [dat|] eqn:Hv.
    - unfold GetAll in Hg. rewrite Hv in Hg.
      destruct dat; simplify_eq. by apply Value_table.
    - destruct (gorm.Find (database w)) as [[d ts] err] eqn:Hq.
      rewrite (GetAll_miss r _ _ _ _ Hv Hq) in Hg.
      destruct err; simplify_eq. simpl.
      unfold cache2go.Add. rewrite lookup_insert_eq. by eexists. }
  split.
  - intros dt [dat Hv]. apply GetAll_hit. rewrite Hv. f_equal.
    destruct (Value_table _ _ _ Hv) as (item1 & Hi1 & Hd1).
    simpl in Hi1. congruence.
  - intros Hexp. apply GetAll_hit.
    destruct (cache_Value "all" w) as [dat|] eqn:Hv.
    + unfold GetAll in Hg. rewrite Hv in Hg. destruct dat; by simplify_eq.
    + destruct (gorm.Find (database w)) as [[d ts] err] eqn:Hq.
      rewrite (GetAll_miss r _ _ _ _ Hv Hq) in Hg.
      destruct err; simplify_eq.
      rewrite <- (sleep_0 (cache_Add _ _ _ _)).
      apply Value_Add_sleep. lia.
Qed.

(** ** Results *)

(** X14: what the read methods return.  [GetByID] returns an entity and a
    [nil] error, or [nil] and an error; [GetAll] a slice and a [nil] error,
    or [nil] and an error; [BatchGet] a map and a [nil] error, or a [nil] map
    and an error: never both, never neither. *)
Theorem results_value_or_error r w :
  (forall id,
      match fst (GetByID r id w) with
      | Return (Some _, None) | Return (None, Some _) | Panic => True
      | Return _ => False
      end)
  /\ match fst (GetAll r w) with
     | Return (Some _, None) | Return (None, Some _) | Panic => True
     | Return _ => False
     end
  /\ (forall ids,
        match fst (BatchGet r ids w) with
        | Return (Some _, None) | Return (None, Some _) | Panic => True
        | Return _ => False
        end).
Proof.
  split; [|split].
  - intros id. destruct (cache_Value (buildCacheKey r id) w) as [dat|] eqn:Hv.
    + unfold GetByID. rewrite Hv. by destruct dat.
    + destruct (gorm.First (primaryKey r +:+ " = ?") id inhabitant (database w))
        as [[d t] err] eqn:Hq.
      rewrite (GetByID_miss _ _ _ _ _ _ Hv Hq). by destruct err.
  - destruct (cache_Value "all" w) as [dat|] eqn:Hv.
    + unfold GetAll. rewrite Hv. by destruct dat.
    + destruct (gorm.Find (database w)) as [[d ts] err] eqn:Hq.
      rewrite (GetAll_miss r _ _ _ _ Hv Hq). by destruct err.
  - intros ids.
    destruct (BatchGet_lookup r w ids ∅ []) as [[result unc]|] eqn:Hl.
    2:{ unfold BatchGet. by rewrite Hl. }
    destruct (gorm.FindIn (primaryKey r +:+ " IN ?") unc (database w))
      as [[d ts] err] eqn:Hq.
    rewrite (BatchGet_unfold r _ _ _ _ _ _ _ Hl Hq).
    destruct unc; [done|]. by destruct err.
Qed.

(** ** BatchGet and the cache *)

Lemma BatchGet_not_panic r ids w :
  fst (BatchGet r ids w) <> Panic ->
  exists result,
    BatchGet_lookup r w ids ∅ [] = Return (result, uncached r w ids)
    /\ forall id p,
         result !! id = Some p
         <-> id ∈ ids /\ cache_Value (buildCacheKey r id) w = Some (Entity p).
Proof.
  intros Hnp.
  destruct (BatchGet_lookup_cases r ids w) as [[Hl _]|Hret]; [|exact Hret].
  destruct Hnp. unfold BatchGet. by rewrite Hl.
Qed.

Lemma uncached_all r w ids :
  Forall (fun id => cache_Value (buildCacheKey r id) w = None) ids ->
  uncached r w ids = ids.
Proof.
  induction 1 as [|id ids Hv _ IH]; [done|].
  unfold uncached. rewrite filter_cons_True by done. f_equal. exact IH.
Qed.

Lemma uncached_ext r w w1 ids :
  Forall (fun id => cache_Value (buildCacheKey r id) w1
                    = cache_Value (buildCacheKey r id) w) ids ->
  uncached r w1 ids = uncached r w ids.
Proof.
  induction 1 as [|id ids Hv _ IH]; [done|].
  unfold uncached in *. rewrite !filter_cons, Hv, IH. done.
Qed.

Lemma db_calls_cache_writes (evs : list (Event ID)) :
  Forall (fun ev => is_cache_write ev = true) evs -> db_calls evs = 0%nat.
Proof.
  induction 1 as [|ev evs Hev _ IH]; [done|].
  unfold db_calls in *. rewrite filter_cons_False; [exact IH|].
  destruct ev; simpl in *; congruence.
Qed.

Lemma BatchGet_fill_writes r entities :
  Forall (fun ev : Event ID => is_cache_write ev = true)
    (map (fun entity => CacheAdd "" (Expiration (config r)) (Entity entity))
       entities).
Proof. apply Forall_map. by apply Forall_true. Qed.

Lemma BatchGet_fill_snoc r entities entity w :
  BatchGet_fill r (entities ++ [entity]) w
  = cache_Add "" (Expiration (config r)) (Entity entity)
      (BatchGet_fill r entities w).
Proof.
  revert w. induction entities as [|e entities IH]; intros w; [done|].
  simpl. by rewrite IH.
Qed.

(** X7: with none of the requested ids in the cache, [BatchGet] asks the
    database for exactly the ids it was given, once, and, when the query
    succeeds, returns an empty map, whatever rows the query found. *)
Theorem BatchGet_cold r ids w d ts :
  Forall (fun id => cache_Value (buildCacheKey r id) w = None) ids ->
  ids <> [] ->
  gorm.FindIn (primaryKey r +:+ " IN ?") ids (database w) = (d, ts, None) ->
  let w1 := snd (BatchGet r ids w) in
  fst (BatchGet r ids w) = Return (Some ∅, None)
  /\ heap w1 = heap w ++ ts
  /\ (exists writes,
        trace w1
        = trace w
          ++ DBFindIn (primaryKey r +:+ " IN ?") ids
               (seq (length (heap w)) (length ts)) None :: writes
        /\ Forall (fun ev => is_cache_write ev = true) writes)
  /\ db_calls (trace w1) = S (db_calls (trace w)).
Proof.
  intros Hmiss Hne Hq w1. subst w1.
  destruct (BatchGet_lookup_cases r ids w) as [[_ Hex]|(result & Hl & Hres)].
  { apply Exists_exists in Hex. destruct Hex as (id & Hin & ps & Hv).
    rewrite Forall_forall in Hmiss. rewrite (Hmiss id Hin) in Hv. done. }
  rewrite (uncached_all _ _ _ Hmiss) in Hl.
  assert (result = ∅) as ->.
  { apply map_empty. intros id. destruct (result !! id) as [p|] eqn:Hr; [|done].
    apply Hres in Hr. destruct Hr as [Hin Hv].
    rewrite Forall_forall in Hmiss. rewrite (Hmiss id Hin) in Hv. done. }
  rewrite (BatchGet_unfold r _ _ _ _ _ _ _ Hl Hq).
  destruct ids as [|id0 ids0]; [done|]. cbn [fst snd].
  split; [done|]. split; [apply BatchGet_fill_heap|].
  rewrite BatchGet_fill_trace. simpl. rewrite <- app_assoc. simpl.
  split.
  - eexists. split; [reflexivity|]. apply BatchGet_fill_writes.
  - rewrite db_calls_app.
    change (DBFindIn (primaryKey r +:+ " IN ?") (id0 :: ids0)
              (seq (length (heap w)) (length ts)) None
            :: map (fun entity => CacheAdd "" (Expiration (config r)) (Entity entity))
                 (seq (length (heap w)) (length ts)))
      with ([DBFindIn (primaryKey r +:+ " IN ?") (id0 :: ids0)
               (seq (length (heap w)) (length ts)) None]
            ++ map (fun entity => CacheAdd "" (Expiration (config r)) (Entity entity))
                 (seq (length (heap w)) (length ts))).
    rewrite db_calls_app, (db_calls_cache_writes _ (BatchGet_fill_writes r _)).
    unfold db_calls at 2. simpl. lia.
Qed.

(** X8: a [BatchGet] that does not panic calls the database at most once:
    not at all, leaving the world as it is, when every id has a live entry,
    and otherwise with one [Find] over the ids without one, in the order and
    with the repetitions they were given in; only cache writes follow the
    query. *)
Theorem BatchGet_queries_once r ids w :
  fst (BatchGet r ids w) <> Panic ->
  let w1 := snd (BatchGet r ids w) in
  (uncached r w ids = [] -> w1 = w)
  /\ (uncached r w ids <> [] ->
      exists entities err writes,
        trace w1
        = trace w
          ++ DBFindIn (primaryKey r +:+ " IN ?") (uncached r w ids) entities err
             :: writes
        /\ Forall (fun ev => is_cache_write ev = true) writes
        /\ db_calls (trace w1) = S (db_calls (trace w))).
Proof.
  intros Hnp w1. subst w1.
  destruct (BatchGet_not_panic _ _ _ Hnp) as (result & Hl & _).
  destruct (gorm.FindIn (primaryKey r +:+ " IN ?") (uncached r w ids) (database w))
    as [[d ts] err] eqn:Hq.
  rewrite (BatchGet_unfold r _ _ _ _ _ _ _ Hl Hq).
  destruct (uncached r w ids) as [|id0 ids0]; [done|].
  split; [done|]. intros _.
  assert (forall ev (writes : list (Event ID)),
             is_db_call ev = true ->
             Forall (fun ev => is_cache_write ev = true) writes ->
             db_calls (trace w ++ ev :: writes) = S (db_calls (trace w)))
    as Hcount.
  { intros ev writes Hev Hw. change (ev :: writes) with ([ev] ++ writes).
    rewrite !db_calls_app, (db_calls_cache_writes _ Hw).
    unfold db_calls at 2. rewrite filter_cons_True by done. simpl. lia. }
  destruct err as [e|]; cbn [snd].
  - eexists _, _, []. split; [reflexivity|]. split; [constructor|].
    simpl. by apply Hcount.
  - eexists _, _, _. rewrite BatchGet_fill_trace. simpl. rewrite <- app_assoc.
    split; [reflexivity|]. split; [apply BatchGet_fill_writes|].
    simpl. apply Hcount; [done|apply BatchGet_fill_writes].
Qed.

Lemma BatchGet_frame r ids w key :
  key <> "" ->
  cacheTable (snd (BatchGet r ids w)) !! key = cacheTable w !! key.
Proof.
  intros Hk.
  destruct (BatchGet_lookup r w ids ∅ []) as [[result uncachedIDs]|] eqn:Hl.
  2:{ unfold BatchGet. by rewrite Hl. }
  destruct (gorm.FindIn (primaryKey r +:+ " IN ?") uncachedIDs (database w))
    as [[d ts] err] eqn:Hq.
  rewrite (BatchGet_unfold r _ _ _ _ _ _ _ Hl Hq).
  destruct uncachedIDs as [|id0 ids0]; [done|].
  destruct err as [e|]; cbn [snd]; [done|].
  by rewrite BatchGet_fill_table.
Qed.

Lemma BatchGet_now r ids w : now (snd (BatchGet r ids w)) = now w.
Proof.
  destruct (BatchGet_lookup r w ids ∅ []) as [[result uncachedIDs]|] eqn:Hl.
  2:{ unfold BatchGet. by rewrite Hl. }
  destruct (gorm.FindIn (primaryKey r +:+ " IN ?") uncachedIDs (database w))
    as [[d ts] err] eqn:Hq.
  rewrite (BatchGet_unfold r _ _ _ _ _ _ _ Hl Hq).
  destruct uncachedIDs as [|id0 ids0]; [done|].
  destruct err as [e|]; cbn [snd]; [done|].
  exact (proj2 (proj2 (BatchGet_fill_heap _ _ _))).
Qed.

(** X9: [BatchGet] does not fill the cache for the ids it looked up.  It
    changes no entry but the one of the empty key; so, when no requested id
    has the empty key, the ids that missed the cache miss it again after the
    call, and so does a [GetByID] of any of them. *)
Theorem BatchGet_does_not_warm r ids w :
  let w1 := snd (BatchGet r ids w) in
  (forall key, key <> "" -> cacheTable w1 !! key = cacheTable w !! key)
  /\ (Forall (fun id => buildCacheKey r id <> "") ids ->
      uncached r w1 ids = uncached r w ids
      /\ forall id, id ∈ uncached r w ids ->
           cache_Value (buildCacheKey r id) w1 = None).
Proof.
  intros w1. split; [intros key; apply BatchGet_frame|].
  intros Hkeys.
  assert (Forall (fun id => cache_Value (buildCacheKey r id) w1
                            = cache_Value (buildCacheKey r id) w) ids) as Hsame.
  { eapply Forall_impl; [exact Hkeys|]. intros id Hk.
    apply cache_Value_ext; [apply BatchGet_now|by apply BatchGet_frame]. }
  split; [by apply uncached_ext|].
  intros id Hin. unfold uncached in Hin. apply list_elem_of_filter in Hin.
  destruct Hin as [Hv Hin]. rewrite Forall_forall in Hsame.
  by rewrite (Hsame id Hin).
Qed.

(** X10: of the entities a [BatchGet] query returns, the cache keeps one:
    every one is added under the empty key, so the entry there after the call
    is the last entity returned. *)
Theorem BatchGet_caches_last_entity r ids w d ts t :
  fst (BatchGet r ids w) <> Panic ->
  uncached r w ids <> [] ->
  gorm.FindIn (primaryKey r +:+ " IN ?") (uncached r w ids) (database w)
    = (d, ts ++ [t], None) ->
  let w1 := snd (BatchGet r ids w) in
  let last := (length (heap w) + length ts)%nat in
  cacheTable w1 !! ""
  = Some {| cache2go.data := Entity last;
            cache2go.lifeSpan := Expiration (config r);
            cache2go.createdOn := now w |}
  /\ heap w1 !! last = Some t.
Proof.
  intros Hnp Hne Hq w1 last. subst w1 last.
  destruct (BatchGet_not_panic _ _ _ Hnp) as (result & Hl & _).
  rewrite (BatchGet_unfold r _ _ _ _ _ _ _ Hl Hq).
  destruct (uncached r w ids) as [|id0 ids0]; [done|]. cbn [snd].
  rewrite length_app. cbn [length]. rewrite Nat.add_1_r, seq_S.
  rewrite BatchGet_fill_snoc. split.
  - simpl. unfold cache2go.Add. rewrite lookup_insert_eq. do 2 f_equal.
    exact (proj2 (proj2 (BatchGet_fill_heap _ _ _))).
  - simpl.
    destruct (BatchGet_fill_heap r (seq (length (heap w)) (length ts))
                (emit (DBFindIn (primaryKey r +:+ " IN ?") (id0 :: ids0)
                         (seq (length (heap w)) (length ts)
                          ++ [(length (heap w) + length ts)%nat]) None)
                   (set_store (heap w ++ ts ++ [t]) d w))) as (-> & _).
    simpl. rewrite app_assoc.
    rewrite <- length_app. apply list_lookup_middle. done.
Qed.

End Compositions.

(** * The repository of users, continued *)

Module UserRepositoryCompositions.
Import examples.

(** X1 at work: user 2 is read through the cache. *)
Lemma GetByID_read_through_witness :
  fst (GetByID repo 2%N start) = Return (Some 1%nat, None)
  /\ heap (snd (GetByID repo 2%N start)) !! 1%nat = Some (user 2 "user2" 25)
  /\ db_calls (trace (snd (GetByID repo 2%N
                             (sleep 7 (snd (GetByID repo 2%N start))))))
     = 1%nat.
Proof.
  assert (gorm.First "id = ?" 2%N inhabitant users_table
          = (users_table, user 2 "user2" 25, None)) as Hq by reflexivity.
  pose proof (GetByID_read_through repo 2%N start users_table
                (user 2 "user2" 25) eq_refl Hq) as Hread.
  cbv zeta in Hread. destruct Hread as (Hret & Hcell & _ & _ & _ & Hnext).
  split; [exact Hret|]. split; [exact Hcell|].
  apply (Hnext 7). right. reflexivity.
Defined.

(** X2 at work: the entity the caller holds is as it was after a [GetAll]. *)
Lemma entities_are_kept_witness :
  heap (snd (GetAll repo start)) !! 0%nat = Some (user 1 "user1" 21)
  /\ heap (snd (Save repo 1%nat user1_cached)) !! 0%nat
     = Some (user 1 "user1" 21).
Proof.
  destruct (entities_are_kept repo start 0%nat (user 1 "user1" 21) eq_refl)
    as (_ & Hall & _).
  destruct (entities_are_kept repo user1_cached 0%nat (user 1 "user1" 21)
              eq_refl) as (_ & _ & _ & Hsave & _).
  split; [exact Hall|]. apply Hsave. discriminate.
Defined.

(** X3 at work: reading user 2 keeps the cached collection, [GetAll] keeps
    the entry of user 1. *)
Lemma cache_entries_are_kept_witness :
  cacheTable (snd (GetByID repo 2%N all_cached)) !! "all"
  = cacheTable all_cached !! "all"
  /\ cacheTable (snd (GetAll repo user1_cached)) !! "1"
     = cacheTable user1_cached !! "1".
Proof.
  destruct (cache_entries_are_kept repo all_cached "all") as (Hget & _).
  destruct (cache_entries_are_kept repo user1_cached "1") as (_ & Hall & _).
  split.
  - apply Hget. intros Hk. symmetry in Hk.
    by apply (UserRepository.uint_key_not_all repo 2%N).
  - apply Hall. discriminate.
Defined.

(** X4 at work: in the repository of users no call panics. *)
Lemma no_call_panics_witness :
  panics repo (CallBatchGet [1; 2]%N)
    (exec_all repo [CallGetAll; CallGetByID 1%N; CallSave 0%nat]
       (init [user 1 "user1" 21] users_table 0))
  = false.
Proof.
  destruct (no_call_panics (db := MemDB User) repo
              (UserRepository.uint_key_not_all repo)) as (_ & Hreach).
  apply Hreach.
Defined.

(** X5 at work: user 1 is cached at address 1; saving the entity at address
    0, which is user 1 too, does not change what [GetByID] answers. *)
Lemma Save_keeps_entries_of_ids_witness :
  fst (GetByID repo 1%N (snd (Save repo 0%nat user1_cached)))
  = fst (GetByID repo 1%N user1_cached)
  /\ snd (GetByID repo 1%N (snd (Save repo 0%nat user1_cached)))
     = snd (Save repo 0%nat user1_cached).
Proof.
  pose proof (Save_keeps_entries_of_ids repo 0%nat 1%N user1_cached
                (UserRepository.uint_key_not_empty repo 1%N)
                (UserRepository.uint_key_not_all repo 1%N)) as Hkeep.
  cbv zeta in Hkeep. destruct Hkeep as (_ & Hhit).
  apply Hhit. eexists. reflexivity.
Defined.

(** X6 at work: after deleting user 1 the next [GetByID] asks the
    database. *)
Lemma GetByID_after_invalidation_witness :
  db_calls (trace (snd (GetByID repo 1%N
                          (sleep 0 (snd (Delete repo 1%N user1_cached))))))
  = S (S (db_calls (trace user1_cached))).
Proof.
  destruct (GetByID_after_invalidation repo 1%N user1_cached) as (_ & Hdelete).
  apply Hdelete. reflexivity.
Defined.

(** X7 at work: nothing is cached, users 1 and 2 are in the database, and
    [BatchGet] of both returns an empty map. *)
Lemma BatchGet_cold_witness :
  fst (BatchGet repo [1; 2]%N start) = Return (Some ∅, None)
  /\ db_calls (trace (snd (BatchGet repo [1; 2]%N start))) = 1%nat.
Proof.
  assert (gorm.FindIn (primaryKey repo +:+ " IN ?") [1; 2]%N (database start)
          = (users_table, rows users_table, None)) as Hq by reflexivity.
  assert (Forall (fun id => cache_Value (buildCacheKey repo id) start = None)
            [1; 2]%N) as Hmiss by (repeat constructor).
  assert ([1; 2]%N <> []) as Hne by discriminate.
  pose proof (BatchGet_cold repo [1; 2]%N start users_table (rows users_table)
                Hmiss Hne Hq) as Hcold.
  cbv zeta in Hcold. destruct Hcold as (Hret & _ & _ & Hcalls).
  split; assumption.
Defined.

(** X8 at work: with user 1 cached, [BatchGet] of 1, 2 and 3 makes one
    call. *)
Lemma BatchGet_queries_once_witness :
  db_calls (trace (snd (BatchGet repo [1; 2; 3]%N user1_cached)))
  = S (db_calls (trace user1_cached)).
Proof.
  assert (fst (BatchGet repo [1; 2; 3]%N user1_cached) <> Panic) as Hnp
    by (by vm_compute).
  pose proof (BatchGet_queries_once repo [1; 2; 3]%N user1_cached Hnp) as Honce.
  cbv zeta in Honce. destruct Honce as (_ & Hquery).
  destruct Hquery as (entities & err & writes & _ & _ & Hcalls).
  - by vm_compute.
  - exact Hcalls.
Defined.

(** X9 at work: users 2 and 3 are as uncached after the [BatchGet] as
    before. *)
Lemma BatchGet_does_not_warm_witness :
  uncached repo (snd (BatchGet repo [1; 2; 3]%N user1_cached)) [1; 2; 3]%N
  = uncached repo user1_cached [1; 2; 3]%N.
Proof.
  pose proof (BatchGet_does_not_warm repo [1; 2; 3]%N user1_cached) as Hwarm.
  cbv zeta in Hwarm. destruct Hwarm as (_ & Hmiss).
  apply Hmiss. apply Forall_forall. intros id _.
  apply UserRepository.uint_key_not_empty.
Defined.

(** X10 at work: the query returns user 2, which ends up under the empty
    key. *)
Lemma BatchGet_caches_last_entity_witness :
  cache2go.data <$> cacheTable (snd (BatchGet repo [1; 2; 3]%N user1_cached)) !! ""
  = Some (Entity 2%nat)
  /\ heap (snd (BatchGet repo [1; 2; 3]%N user1_cached)) !! 2%nat
     = Some (user 2 "user2" 25).
Proof.
  assert (fst (BatchGet repo [1; 2; 3]%N user1_cached) <> Panic) as Hnp
    by (by vm_compute).
  assert (uncached repo user1_cached [1; 2; 3]%N <> []) as Hne
    by (by vm_compute).
  assert (gorm.FindIn (primaryKey repo +:+ " IN ?")
            (uncached repo user1_cached [1; 2; 3]%N) (database user1_cached)
          = (users_table, [] ++ [user 2 "user2" 25], None)) as Hq
    by reflexivity.
  pose proof (BatchGet_caches_last_entity repo [1; 2; 3]%N user1_cached
                users_table [] (user 2 "user2" 25) Hnp Hne Hq) as Hlast.
  cbv zeta in Hlast. destruct Hlast as (Hentry & Hcell).
  split; [by rewrite Hentry|exact Hcell].
Defined.

(** X11 at work: the second [GetAll] is answered from the cache. *)
Lemma GetAll_twice_witness :
  GetAll repo all_cached = (Return (Some [2%nat; 3%nat], None), all_cached).
Proof.
  assert (GetAll repo user1_cached
          = (Return (Some [2%nat; 3%nat], None), all_cached)) as Hg
    by reflexivity.
  destruct (GetAll_twice repo user1_cached [2%nat; 3%nat] all_cached Hg)
    as (_ & Hnext).
  apply Hnext. by vm_compute.
Defined.

(** X12 at work: ten minutes after user 1 was cached, [GetByID] asks the
    database again. *)
Lemma GetByID_entry_expires_witness :
  cache_Value "1" (sleep 600000000000 user1_cached) = None
  /\ db_calls (trace (snd (GetByID repo 1%N (sleep 600000000000 user1_cached))))
     = 2%nat.
Proof.
  assert (0 < Expiration (config repo)) as Hpos by reflexivity.
  assert (Expiration (config repo) <= 600000000000) as Hdt by (by vm_compute).
  exact (GetByID_entry_expires repo 1%N start 600000000000 eq_refl Hpos Hdt).
Defined.

(** X13 at work: the caller changes the age of the cached user 1; the next
    [GetByID] returns the changed entity. *)
Lemma cached_entity_is_shared_witness :
  let w1 := exec repo (Assign 1%nat (user 1 "user1" 30)) user1_cached in
  GetByID repo 1%N w1 = (Return (Some 1%nat, None), w1)
  /\ heap w1 !! 1%nat = Some (user 1 "user1" 30).
Proof.
  assert ((1 < length (heap user1_cached))%nat) as Hp by (vm_compute; lia).
  pose proof (cached_entity_is_shared repo 1%N user1_cached 1%nat
                (user 1 "user1" 30) eq_refl Hp) as Hshared.
  cbv zeta in Hshared. destruct Hshared as (Hget & Hcell & _).
  split; assumption.
Defined.

(** X15 at work: in the repository of users by name, with the collection
    cached, [GetByID] and [BatchGet] of the name ["all"] panic. *)
Lemma panics_on_wrong_shape_witness :
  fst (GetByID repo_by_name "all" all_cached_by_name) = Panic
  /\ fst (BatchGet repo_by_name ["all"] all_cached_by_name) = Panic.
Proof.
  destruct (panics_on_wrong_shape repo_by_name all_cached_by_name)
    as (Hget & _ & Hbatch & _).
  split.
  - apply Hget. eexists. reflexivity.
  - apply Hbatch. apply Exists_cons_hd. eexists. reflexivity.
Defined.

End UserRepositoryCompositions.
